(** * NiftyJoiner: the join pacing and outcome-tracking engine

    A shallow embedding of [src/NiftyJoiner.py]:
    - the link classification inlined in [get_group_info] and
      [join_single_group] (pure string processing);
    - [get_group_info], [join_single_group] and [join_groups_batch] over an
      abstract Telegram client, in a state / trace / exception monad;
    - [display_results_summary], [load_group_links], the saved accounts of
      [ConfigManager] and [delete_account].

    Python [str] is modelled by [string], [int] by [Z] (or [nat] for the
    loop index of [enumerate]), [float] by the kernel's binary64 floats.
    The exceptions of the model are the subclasses of Python's [Exception];
    interpreter signals that are not ([KeyboardInterrupt], task
    cancellation) are outside of it.

    Logging is not modelled: the handlers of [logging] print without
    markup and swallow their own errors.  [console.print] is an operation
    of the client that may raise, as rich does on a text whose markup does
    not parse (a closing tag without its opening one); it leaves no event in
    the trace.  The calls on the progress bar only store what the bar
    shows: they are operations of the client that do not raise. *)

From Stdlib Require Import Bool Arith ZArith List String Ascii Lia.
From Stdlib Require Import Floats Numbers.DecimalString.
From Stdlib Require Import Sorting.Permutation Sorting.Sorted.
Import ListNotations.

Set Implicit Arguments.
Set Warnings "-inexact-float".

Local Open Scope string_scope.
Local Open Scope list_scope.

(** ** Python string primitives *)

Module PyStr.

(** [s.startswith(p)] *)
Fixpoint startswith (p s : string) : bool :=
  match p with
  | EmptyString => true
  | String a p' =>
      match s with
      | EmptyString => false
      | String b s' => Ascii.eqb a b && startswith p' s'
      end
  end.

(** [sub in s] *)
Fixpoint contains (sub s : string) : bool :=
  match s with
  | EmptyString => startswith sub EmptyString
  | String _ s' => startswith sub s || contains sub s'
  end.

(** [s.split(sep)] for a separator of one character: never the empty list. *)
Fixpoint split (sep : ascii) (s : string) : list string :=
  match s with
  | EmptyString => [EmptyString]
  | String c s' =>
      if Ascii.eqb c sep then EmptyString :: split sep s'
      else match split sep s' with
           | [] => [String c EmptyString]
           | hd :: tl => String c hd :: tl
           end
  end.

(** [l[-1]]; the default is returned on the empty list only, where Python
    raises [IndexError]: [split] never produces it ([split_not_nil]). *)
Definition last_item (l : list string) : string := List.last l EmptyString.

(** [s.replace(old, new)] for a non-empty [old]: the occurrences of [old]
    are replaced from left to right, without overlap.  [skip] counts the
    characters of a matched occurrence that are still to be dropped. *)
Fixpoint replace_from (old new : string) (skip : nat) (s : string) : string :=
  match s with
  | EmptyString => EmptyString
  | String c s' =>
      match skip with
      | S k => replace_from old new k s'
      | O =>
          if startswith old s
          then new ++ replace_from old new (String.length old - 1) s'
          else String c (replace_from old new 0 s')
      end
  end.

Definition replace (old new s : string) : string := replace_from old new 0 s.

(** [str(n)] for an [int] *)
Definition str_of_int (n : Z) : string := NilZero.string_of_int (Z.to_int n).

(** [c.isspace()] for a character of code point below 256: the tab,
    line feed, vertical tab, form feed, carriage return, the four
    separators 28-31, the space, NEL (133) and the no-break space (160). *)
Definition isspace (c : ascii) : bool :=
  let n := nat_of_ascii c in
  ((9 <=? n)%nat && (n <=? 13)%nat) || ((28 <=? n)%nat && (n <=? 32)%nat)
  || (n =? 133)%nat || (n =? 160)%nat.

(** [s.lstrip()] *)
Fixpoint lstrip (s : string) : string :=
  match s with
  | EmptyString => EmptyString
  | String c s' => if isspace c then lstrip s' else s
  end.

(** [s.rstrip()] *)
Fixpoint rstrip (s : string) : string :=
  match s with
  | EmptyString => EmptyString
  | String c s' =>
      match rstrip s' with
      | EmptyString => if isspace c then EmptyString else String c EmptyString
      | r => String c r
      end
  end.

(** [s.strip()] *)
Definition strip (s : string) : string := rstrip (lstrip s).

(** The line feed, ['\n']. *)
Definition newline : ascii := "010"%char.

End PyStr.

(** ** Target classification (NiftyJoiner.py, lines 286-289 and 307-324) *)

Inductive LinkKind : Type := Public | PrivateInvite.

(** [channel_part = link.split('/')[-1]] *)
Definition channel_part (link : string) : string :=
  PyStr.last_item (PyStr.split "/" link).

(** The test of lines 289 and 310:
    ["joinchat" in link or channel_part.startswith('+')] *)
Definition is_private (link : string) : bool :=
  PyStr.contains "joinchat" link || PyStr.startswith "+" (channel_part link).

(** Lines 313-315: the hash handed to [ImportChatInviteRequest]. *)
Definition invite_hash (link : string) : string :=
  let h := PyStr.replace "+" "" (channel_part link) in
  if PyStr.contains "joinchat" link then PyStr.replace "joinchat/" "" h else h.

Record JoinTarget : Type := {
  raw_link : string;
  kind : LinkKind;
  identifier : string
}.

(** The kind of request [join_single_group] issues for [link] and the
    identifier it passes to it. *)
Definition classify (link : string) : JoinTarget :=
  if is_private link
  then {| raw_link := link; kind := PrivateInvite; identifier := invite_hash link |}
  else {| raw_link := link; kind := Public; identifier := channel_part link |}.

(** ** Exceptions and results *)

(** The classes of the [except] clauses of the source, and every other
    subclass of [Exception]. *)
Inductive exn_class : Type :=
| UserAlreadyParticipantError
| FloodWaitError (seconds : Z)
| InviteHashExpiredError
| ChannelPrivateError
| UserBannedInChannelError
| ZeroDivisionError
| OtherException.

(** An exception object: its class and [str(e)]. *)
Record exn : Type := mkExn { cls : exn_class; str : string }.

Inductive result (A : Type) : Type :=
| Ok (a : A)
| Raise (e : exn).
Arguments Ok {A} a.
Arguments Raise {A} e.

(** ** The Telegram client *)

(** What the source reads of the objects the client returns. *)
Record Entity : Type := { title : string }.
Record FullChannel : Type := { participants_count : option Z }.
(** [chats] is [None] when the object has no attribute [chats]. *)
Record Updates : Type := { chats : option (list Entity) }.

Inductive request : Type :=
| GetEntity (name : string)
| GetFullChannelRequest (entity : Entity)
| ImportChatInviteRequest (hash : string)
| JoinChannelRequest (channel : string).

(** What a run does to the outside, in the order it does it. *)
Inductive event : Type :=
| Call (r : request)
| Sleep (seconds : float).

(** What [console.print] is given: a text with rich markup, or a table;
    a cell of a table is a text or a percentage [f"{x:.1f}%"]. *)
Inductive cell : Type :=
| Str (s : string)
| Percent (x : float).

Inductive renderable : Type :=
| Markup (text : string)
| Table (title : string) (columns : list string) (rows : list (list cell)).

(** The calls on the progress bar of [join_groups_batch]: entering and
    leaving [with Progress(...)], [add_task], [update] with a description
    (that of a wait is [f"Waiting {delay_minutes:.1f} minutes..."]) and
    [update(advance=1)]. *)
Inductive progress_op : Type :=
| ProgressStart
| AddTask (description : string) (total : nat)
| SetDescription (text : string)
| SetWaiting (delay_minutes : float)
| Advance
| ProgressStop.

(** The client, the clock, the random source and the console over a world
    [W].  [asyncio_sleep] returns or does not: [Raise] stands for every
    sleep the run does not come back from, one that raises and one that
    never ends (an infinite delay).  The loop of [join_groups_batch] has no
    handler around its sleep, so that in both cases nothing of the run
    follows. *)
Record Client (W : Type) : Type := {
  get_entity : string -> W -> result Entity * W;
  get_full_channel : Entity -> W -> result FullChannel * W;
  import_chat_invite : string -> W -> result Updates * W;
  join_channel : string -> W -> result unit * W;
  random_random : W -> float * W;
  asyncio_sleep : float -> W -> result unit * W;
  datetime_now : W -> Z;
  progress : progress_op -> W -> W;
  console_print : renderable -> W -> result unit * W
}.

(** [JoinResult] (lines 42-50); a [datetime] is a timestamp. *)
Record JoinResult : Type := {
  link : string;
  success : bool;
  error : option string;
  group_name : option string;
  member_count : option Z;
  join_time : option Z
}.

(** ** The monad: world, trace of events, exceptions *)

Definition M (W A : Type) : Type := W -> result A * W * list event.

Definition ret {W A} (a : A) : M W A := fun w => (Ok a, w, []).

Definition bind {W A B} (m : M W A) (f : A -> M W B) : M W B :=
  fun w =>
    match m w with
    | (Ok a, w1, t1) => let '(r, w2, t2) := f a w1 in (r, w2, t1 ++ t2)
    | (Raise e, w1, t1) => (Raise e, w1, t1)
    end.

Declare Scope py_scope.
Delimit Scope py_scope with py.
Notation "x <- m ;; k" := (bind m (fun x => k))
  (at level 100, m at next level, right associativity) : py_scope.
Notation "m ;;; k" := (bind m (fun _ => k))
  (at level 100, right associativity) : py_scope.

(** One [except] clause: [Some handler] when it matches the exception. *)
Definition except_clause (W A : Type) : Type := exn -> option (M W A).

(** The first clause that matches, in the order of the source. *)
Fixpoint dispatch {W A} (clauses : list (except_clause W A)) (e : exn) : option (M W A) :=
  match clauses with
  | [] => None
  | h :: tl => match h e with
               | Some k => Some k
               | None => dispatch tl e
               end
  end.

(** [try: body  except ...: ...]; an exception no clause matches, or one a
    handler raises, propagates. *)
Definition try_except {W A} (body : M W A) (clauses : list (except_clause W A)) : M W A :=
  fun w =>
    match body w with
    | (Ok a, w1, t1) => (Ok a, w1, t1)
    | (Raise e, w1, t1) =>
        match dispatch clauses e with
        | Some k => let '(r, w2, t2) := k w1 in (r, w2, t1 ++ t2)
        | None => (Raise e, w1, t1)
        end
    end.

(** [except Exception as e]: every exception of the model. *)
Definition except_Exception {W A} (k : exn -> M W A) : except_clause W A :=
  fun e => Some (k e).

(** [await self.client(request)] *)
Definition call {W A} (r : request) (op : W -> result A * W) : M W A :=
  fun w => let '(res, w1) := op w in (res, w1, [Call r]).

Definition run_result {W A} (x : result A * W * list event) : result A := fst (fst x).
Definition run_world {W A} (x : result A * W * list event) : W := snd (fst x).
Definition run_trace {W A} (x : result A * W * list event) : list event := snd x.

(** ** The line of a result (lines 464-473) *)

(** [if x:] on an optional text, and [f"{x}"]. *)
Definition truthy (x : option string) : bool :=
  match x with
  | Some s => negb (s =? "")%string
  | None => false
  end.

Definition str_of_option (x : option string) : string :=
  match x with
  | Some s => s
  | None => "None"
  end.

(** The check mark U+2713, the ballot cross U+2717 and the bullet U+2022,
    in UTF-8. *)
Definition check_mark : string :=
  String (ascii_of_nat 226) (String (ascii_of_nat 156) (String (ascii_of_nat 147) "")).
Definition ballot_cross : string :=
  String (ascii_of_nat 226) (String (ascii_of_nat 156) (String (ascii_of_nat 151) "")).
Definition bullet : string :=
  String (ascii_of_nat 226) (String (ascii_of_nat 128) (String (ascii_of_nat 162) "")).

(** [f"{status} {link}{group_info}"] *)
Definition result_line (link : string) (result : JoinResult) : string :=
  let status :=
    (if success result
     then "[green]" ++ check_mark ++ "[/green]"
          ++ (if truthy (error result)
              then " ([yellow]" ++ str_of_option (error result) ++ "[/yellow])"
              else "")
     else "[red]" ++ ballot_cross ++ " " ++ str_of_option (error result) ++ "[/red]")%string in
  let group_info :=
    (if truthy (group_name result)
     then " - " ++ str_of_option (group_name result)
     else "")%string in
  (status ++ " " ++ link ++ group_info)%string.

(** ** The joiner (class [TelegramGroupJoiner]) *)

Section Joiner.

Context {W : Type} (client : Client W).

Local Open Scope py_scope.
Local Open Scope float_scope.

(** [get_group_info] (lines 282-296) *)
Definition get_group_info (link : string) : M W (option string * option Z) :=
  try_except
    (let channel_part := channel_part link in
     if PyStr.contains "joinchat" link || PyStr.startswith "+" channel_part
     then ret (None, None)
     else
       entity <- call (GetEntity channel_part) (get_entity client channel_part) ;;
       full_channel <- call (GetFullChannelRequest entity) (get_full_channel client entity) ;;
       ret (Some (title entity), participants_count full_channel))
    [except_Exception (fun _ => ret (None, None))].

(** Lines 307-324: the request of the attempt; it returns [group_name], which
    a successful invite import replaces by the title of the first chat. *)
Definition join_request (link : string) (group_name : option string) : M W (option string) :=
  let channel_part := channel_part link in
  if PyStr.contains "joinchat" link || PyStr.startswith "+" channel_part
  then
    let invite_hash := PyStr.replace "+" "" channel_part in
    let invite_hash :=
      if PyStr.contains "joinchat" link
      then PyStr.replace "joinchat/" "" invite_hash
      else invite_hash in
    result <- call (ImportChatInviteRequest invite_hash) (import_chat_invite client invite_hash) ;;
    match chats result with
    | Some (chat :: _) => ret (Some (title chat))
    | _ => ret group_name
    end
  else
    call (JoinChannelRequest channel_part) (join_channel client channel_part) ;;;
    ret group_name.

(** The [return JoinResult(...)] of a handler (lines 336-392). *)
Definition handler_result (link : string) (ok : bool) (msg : string)
    (group_name : option string) (member_count : option Z) (start_time : Z) : M W JoinResult :=
  ret {| link := link; success := ok; error := Some msg;
         group_name := group_name; member_count := member_count;
         join_time := Some start_time |}.

(** The five [except] clauses of [join_single_group], in source order. *)
Definition join_handlers (link : string) (group_name : option string)
    (member_count : option Z) (start_time : Z) : list (except_clause W JoinResult) :=
  [ (fun e => match cls e with
              | UserAlreadyParticipantError =>
                  Some (handler_result link true "Already a member" group_name member_count start_time)
              | _ => None
              end);
    (fun e => match cls e with
              | FloodWaitError seconds =>
                  Some (handler_result link false
                          ("Rate limited. Wait " ++ PyStr.str_of_int seconds ++ " seconds")%string
                          group_name member_count start_time)
              | _ => None
              end);
    (fun e => match cls e with
              | InviteHashExpiredError | ChannelPrivateError =>
                  Some (handler_result link false "Invalid or expired link" group_name member_count start_time)
              | _ => None
              end);
    (fun e => match cls e with
              | UserBannedInChannelError =>
                  Some (handler_result link false "Banned from this group" group_name member_count start_time)
              | _ => None
              end);
    except_Exception (fun e => handler_result link false (str e) group_name member_count start_time) ].

(** What a handler raises when it reads [group_name] before the [try] body
    has bound it (the text is the one of Python 3.11 and later). *)
Definition UnboundLocalError : exn :=
  mkExn OtherException
    "cannot access local variable 'group_name' where it is not associated with a value".

(** [join_single_group] (lines 298-392).  The [try] body is
    [get_group_info] followed by the request; every handler reads
    [group_name] and [member_count], which the body binds when
    [get_group_info] returns. *)
Definition join_single_group (link : string) : M W JoinResult :=
  fun w =>
    let start_time := datetime_now client w in
    match get_group_info link w with
    | (Raise _, w1, t1) => (Raise UnboundLocalError, w1, t1)
    | (Ok (group_name, member_count), w1, t1) =>
        let '(r, w2, t2) :=
          try_except
            (group_name' <- join_request link group_name ;;
             ret {| link := link; success := true; error := None;
                    group_name := group_name'; member_count := member_count;
                    join_time := Some start_time |})
            (join_handlers link group_name member_count start_time) w1 in
        (r, w2, t1 ++ t2)
    end.

(** A call on the progress bar. *)
Definition on_progress (op : progress_op) : M W unit :=
  fun w => (Ok tt, progress client op w, []).

(** [console.print(r)] *)
Definition on_console (r : renderable) : M W unit :=
  fun w => let '(res, w1) := console_print client r w in (res, w1, []).

(** Lines 444-454: the pause before the attempt of index [i]. *)
Definition pause (base_interval : float) (randomize : bool) (i : nat) : M W unit :=
  if (0 <? i)%nat then
    delay <- (if randomize
              then fun w => let '(r, w1) := random_random client w in
                            (Ok (base_interval * (0.8 + r * 0.4)), w1, [])
              else ret base_interval) ;;
    let delay_minutes := delay in
    let delay_seconds := delay * 60 in
    on_progress (SetWaiting delay_minutes) ;;;
    fun w => let '(r, w1) := asyncio_sleep client delay_seconds w in
             (r, w1, [Sleep delay_seconds])
  else ret tt.

(** One turn of the loop (lines 443-473) for the link of index [i]: the
    pause, the attempt, and the line of its result on the console; the
    result is the one the loop appends. *)
Definition batch_turn (base_interval : float) (randomize : bool) (i : nat)
    (link : string) : M W JoinResult :=
  pause base_interval randomize i ;;;
  on_progress (SetDescription ("Joining: " ++ link)%string) ;;;
  result <- join_single_group link ;;
  on_progress Advance ;;;
  on_console (Markup (result_line link result)) ;;;
  ret result.

(** The loop [for i, link in enumerate(links)] (lines 442-473), from index
    [i] on, with the [results] gathered so far. *)
Fixpoint batch_loop (base_interval : float) (randomize : bool) (i : nat)
    (links : list string) (results : list JoinResult) : M W (list JoinResult) :=
  match links with
  | [] => ret results
  | link :: rest =>
      result <- batch_turn base_interval randomize i link ;;
      batch_loop base_interval randomize (S i) rest (results ++ [result])
  end.

(** The world in which the loop starts: the progress bar is entered and its
    task added (lines 432-440). *)
Definition loop_start (links : list string) (w : W) : W :=
  progress client (AddTask "Joining groups..." (List.length links))
    (progress client ProgressStart w).

(** [join_groups_batch] (lines 428-475): the loop inside
    [with Progress(...)], which is left when the loop returns and when it
    raises. *)
Definition join_groups_batch (links : list string) (base_interval : float)
    (randomize : bool) : M W (list JoinResult) :=
  fun w =>
    let '(r, w1, t) := batch_loop base_interval randomize 0 links [] (loop_start links w) in
    (r, progress client ProgressStop w1, t).

End Joiner.

(** ** The links file (NiftyJoiner.py, lines 394-426) *)

(** The condition of the comprehension of lines 415-419:
    [line.strip() and not line.strip().startswith('#')] *)
Definition keep_line (line : string) : bool :=
  negb (PyStr.strip line =? "")%string && negb (PyStr.startswith "#" (PyStr.strip line)).

(** Lines 415-419: the links of the text of a file. *)
Definition parse_links (content : string) : list string :=
  List.map PyStr.strip (List.filter keep_line (PyStr.split PyStr.newline content)).

(** The template of lines 402-406. *)
Definition links_template : string :=
  String.concat (String PyStr.newline "")
    [ "# Add your Telegram group links here, one per line";
      "# Examples:";
      "# https://t.me/example_group";
      "# https://t.me/joinchat/XXXXXXXXXX";
      "" ].

(** The files, over a world [W]: [Path.exists], writing a text file and
    reading one. *)
Record Files (W : Type) : Type := {
  path_exists : string -> W -> bool;
  write_text : string -> string -> W -> result unit * W;
  read_text : string -> W -> result string * W
}.

(** An operation on the files, which leaves no event in the trace. *)
Definition file_op {W A} (op : W -> result A * W) : M W A :=
  fun w => let '(res, w1) := op w in (res, w1, []).

(** The three texts [load_group_links] prints (lines 399, 410, 424). *)
Definition not_found_text (filename : string) : string :=
  "[red]" ++ filename ++ " not found. Creating template file...[/red]".

Definition template_created_text (filename : string) : string :=
  "[yellow]Template " ++ filename
  ++ " created. Please add your group links and try again.[/yellow]".

Definition error_loading_text (e : exn) : string :=
  "[red]Error loading links: " ++ str e ++ "[/red]".

(** [load_group_links] (lines 394-426); what its handler raises, a print
    that fails, leaves the function. *)
Definition load_group_links {W} (client : Client W) (files : Files W) (filename : string)
    : M W (list string) :=
  try_except
    (fun w =>
       if negb (path_exists files filename w)
       then bind (on_console client (Markup (not_found_text filename))) (fun _ =>
            bind (file_op (write_text files filename links_template)) (fun _ =>
            bind (on_console client (Markup (template_created_text filename))) (fun _ =>
            ret []))) w
       else bind (file_op (read_text files filename))
                 (fun content => ret (parse_links content)) w)
    [except_Exception (fun e =>
       bind (on_console client (Markup (error_loading_text e))) (fun _ => ret []))].

(** ** The results summary *)

(** [float(n)], exact for [0 <= n < 2^53]. *)
Definition float_of_int (n : Z) : float := PrimFloat.of_uint63 (Uint63.of_Z n).

(** [a / b] on [int]s: [ZeroDivisionError] when [b] is [0]; below [2^53] the
    quotient is the binary64 division of the two converted operands. *)
Definition true_div (a b : Z) : result float :=
  if (b =? 0)%Z then Raise (mkExn ZeroDivisionError "division by zero")
  else Ok (float_of_int a / float_of_int b)%float.

(** The rows of the table and the list under it; the percentages are kept as
    floats, before their formatting by [:.1f]. *)
Record Summary : Type := {
  successful : Z;
  failed : Z;
  total : Z;
  successful_percentage : float;
  failed_percentage : float;
  failed_results : list JoinResult
}.

(** [sum(1 for r in results if r.success)] *)
Fixpoint count_success (results : list JoinResult) : Z :=
  match results with
  | [] => 0
  | r :: rest => ((if success r then 1 else 0) + count_success rest)%Z
  end.

(** Lines 479-489 and 494: the counts and the rows of the table; the first
    percentage divides by [len(results)]. *)
Definition summary_of (results : list JoinResult) : result Summary :=
  let successful := count_success results in
  let len := Z.of_nat (List.length results) in
  let failed := (len - successful)%Z in
  match true_div successful len with
  | Raise e => Raise e
  | Ok q1 =>
      match true_div failed len with
      | Raise e => Raise e
      | Ok q2 =>
          Ok {| successful := successful; failed := failed; total := len;
                successful_percentage := (q1 * 100)%float;
                failed_percentage := (q2 * 100)%float;
                failed_results := List.filter (fun r => negb (success r)) results |}
      end
  end.

(** The table of lines 482-489. *)
Definition summary_table (s : Summary) : renderable :=
  Table "Join Results Summary" ["Status"; "Count"; "Percentage"]
    [ [Str "Successful"; Str (PyStr.str_of_int (successful s)); Percent (successful_percentage s)];
      [Str "Failed"; Str (PyStr.str_of_int (failed s)); Percent (failed_percentage s)];
      [Str "Total"; Str (PyStr.str_of_int (total s)); Str "100.0%"] ].

(** The line of a failed attempt (line 498). *)
Definition failed_line (result : JoinResult) : string :=
  "  " ++ bullet ++ " " ++ link result ++ " - " ++ str_of_option (error result).

Section Summary.

Context {W : Type} (client : Client W).

(** The loop of lines 497-498. *)
Fixpoint print_failed (failed_results : list JoinResult) : M W unit :=
  match failed_results with
  | [] => ret tt
  | result :: rest =>
      bind (on_console client (Markup (failed_line result))) (fun _ => print_failed rest)
  end.

(** Lines 491-498: the table, then the failed attempts under their
    heading. *)
Definition print_summary (s : Summary) : M W Summary :=
  bind (on_console client (summary_table s)) (fun _ =>
  bind (match failed_results s with
        | [] => ret tt
        | _ :: _ =>
            bind (on_console client
                    (Markup (String PyStr.newline "[red]Failed Attempts:[/red]")))
                 (fun _ => print_failed (failed_results s))
        end) (fun _ =>
  ret s)).

(** [display_results_summary] (lines 477-498); it returns the summary it
    has shown. *)
Definition display_results_summary (results : list JoinResult) : M W Summary :=
  match summary_of results with
  | Raise e => fun w => (Raise e, w, [])
  | Ok s => print_summary s
  end.

End Summary.

(** What [display_results_summary] sends to the console for the summary
    [s], in order. *)
Definition summary_renderables (s : Summary) : list renderable :=
  summary_table s
  :: match failed_results s with
     | [] => []
     | _ :: _ =>
         Markup (String PyStr.newline "[red]Failed Attempts:[/red]")
         :: map (fun r => Markup (failed_line r)) (failed_results s)
     end.

(** The console accepts the table of [s] and the lines under it. *)
Definition summary_accepted {W} (client : Client W) (s : Summary) : Prop :=
  forall r w, In r (summary_renderables s) -> exists w', console_print client r w = (Ok tt, w').

(** ** Reading a trace *)

(** The request that attempts the join, as against the metadata lookups. *)
Definition is_attempt (r : request) : bool :=
  match r with
  | ImportChatInviteRequest _ | JoinChannelRequest _ => true
  | GetEntity _ | GetFullChannelRequest _ => false
  end.

(** The attempts of a trace, in order. *)
Fixpoint attempts (t : list event) : list request :=
  match t with
  | [] => []
  | Call r :: t' => if is_attempt r then r :: attempts t' else attempts t'
  | Sleep _ :: t' => attempts t'
  end.

(** For each attempt of a trace, the sleeps since the attempt before it (or
    since the start of the run); [acc] holds the sleeps seen so far. *)
Fixpoint waits_from (acc : list float) (t : list event) : list (list float) :=
  match t with
  | [] => []
  | Sleep d :: t' => waits_from (acc ++ [d]) t'
  | Call r :: t' => if is_attempt r then acc :: waits_from [] t' else waits_from acc t'
  end.

Definition waits (t : list event) : list (list float) := waits_from [] t.

(** The seconds waited before an attempt. *)
Definition total_wait (ds : list float) : float := List.fold_left PrimFloat.add ds 0%float.

(** The request [join_single_group] sends for a link, read off [classify]. *)
Definition attempt_request (link : string) : request :=
  match kind (classify link) with
  | PrivateInvite => ImportChatInviteRequest (identifier (classify link))
  | Public => JoinChannelRequest (identifier (classify link))
  end.

(** The delay of lines 446-451 in seconds, for a draw [r] of [random.random()]. *)
Definition policy_delay_seconds (base_interval : float) (randomize : bool) (r : float) : float :=
  ((if randomize then base_interval * (0.8 + r * 0.4) else base_interval) * 60)%float.

(** A wait that is one sleep of the policy's delay, for some draw. *)
Definition paced (base : float) (rnd : bool) (ds : list float) : Prop :=
  exists x, ds = [policy_delay_seconds base rnd x].

(** The detail of a rate-limited outcome (line 347). *)
Definition rate_limited_detail (seconds : Z) : string :=
  "Rate limited. Wait " ++ PyStr.str_of_int seconds ++ " seconds".

(** ** The words of the specification *)

Definition Substring (sub s : string) : Prop := exists pre post, s = (pre ++ sub ++ post)%string.

Definition StartsWith (p s : string) : Prop := exists t, s = (p ++ t)%string.

(** [seg] is the text of [link] after its last ['/'] (all of [link] when it
    has none). *)
Definition FinalSegment (link seg : string) : Prop :=
  ~ Substring "/" seg /\ (link = seg \/ exists pre, link = (pre ++ "/" ++ seg)%string).

(** Only a leading ['+'] removed. *)
Definition strip_leading_plus (seg : string) : string :=
  match seg with
  | String "+" rest => rest
  | _ => seg
  end.

(** Every occurrence of the character [a] removed. *)
Fixpoint remove_char (a : ascii) (s : string) : string :=
  match s with
  | EmptyString => EmptyString
  | String c s' => if Ascii.eqb a c then remove_char a s' else String c (remove_char a s')
  end.

(** The override of the pacing: after an outcome rate-limited for [secs]
    seconds the next attempt is preceded by a wait of [secs] seconds at
    least. *)
Definition rate_limit_wait_honoured (results : list JoinResult) (t : list event) : Prop :=
  forall (i : nat) (r : JoinResult) (secs : Z) (ds : list float),
    nth_error results i = Some r ->
    success r = false -> error r = Some (rate_limited_detail secs) ->
    nth_error (waits t) (S i) = Some ds ->
    PrimFloat.leb (float_of_int secs) (total_wait ds) = true.

(** The pacing as first stated: jitter off, the sleep before every attempt
    after the first is the configured base interval itself. *)
Definition waits_base_interval (base_interval : float) (t : list event) : Prop :=
  forall (i : nat) (ds : list float),
    (0 < i)%nat -> nth_error (waits t) i = Some ds -> ds = [base_interval].

(** A link as [load_group_links] returns them: not empty, not a comment,
    no white space at either end and no line feed inside. *)
Definition clean_link (l : string) : Prop :=
  l <> ""
  /\ PyStr.startswith "#" l = false
  /\ (forall c rest, l = String c rest -> PyStr.isspace c = false)
  /\ (forall pre c, l = (pre ++ String c "")%string -> PyStr.isspace c = false)
  /\ ~ Substring (String PyStr.newline "") l.



(** The world in which the run attempts the link of index [i], from the
    world [w] in which the turn starts: after the pause and the description
    of the attempt on the progress bar. *)
Definition attempt_world {W} (client : Client W) (base : float) (rnd : bool) (i : nat)
    (link : string) (w : W) : W :=
  progress client (SetDescription ("Joining: " ++ link)%string)
    (run_world (pause client base rnd i w)).

(** What the client answers to the attempt for [link] in the world [w]. *)
Definition gateway_signal {W} (client : Client W) (link : string) (w : W) : result unit * W :=
  if is_private link
  then match import_chat_invite client (invite_hash link) w with
       | (Ok _, w1) => (Ok tt, w1)
       | (Raise e, w1) => (Raise e, w1)
       end
  else join_channel client (channel_part link) w.

(** The [success] and [error] the handlers of [join_single_group] give to an
    exception. *)
Definition failure_success (e : exn) : bool :=
  match cls e with
  | UserAlreadyParticipantError => true
  | _ => false
  end.

Definition failure_detail (e : exn) : string :=
  match cls e with
  | UserAlreadyParticipantError => "Already a member"
  | FloodWaitError seconds => rate_limited_detail seconds
  | InviteHashExpiredError | ChannelPrivateError => "Invalid or expired link"
  | UserBannedInChannelError => "Banned from this group"
  | ZeroDivisionError | OtherException => str e
  end.

(** A trace of metadata lookups: no attempt and no sleep. *)
Definition is_lookup (e : event) : bool :=
  match e with
  | Call r => negb (is_attempt r)
  | Sleep _ => false
  end.

(** The sleeps of a trace, in order. *)
Fixpoint sleeps (t : list event) : list float :=
  match t with
  | [] => []
  | Sleep d :: t' => d :: sleeps t'
  | Call _ :: t' => sleeps t'
  end.

(** The requests of a trace, lookups and attempts, in order. *)
Fixpoint calls (t : list event) : list request :=
  match t with
  | [] => []
  | Call r :: t' => r :: calls t'
  | Sleep _ :: t' => calls t'
  end.

(** An in-memory file system: the files and their texts. *)
Module MemFiles.

Fixpoint lookup (path : string) (fs : list (string * string)) : option string :=
  match fs with
  | [] => None
  | (p, text) :: fs' => if (p =? path)%string then Some text else lookup path fs'
  end.

Definition files : Files (list (string * string)) := {|
  path_exists := fun path fs => match lookup path fs with Some _ => true | None => false end;
  write_text := fun path text fs => (Ok tt, (path, text) :: fs);
  read_text := fun path fs =>
    match lookup path fs with
    | Some text => (Ok text, fs)
    | None => (Raise (mkExn OtherException "No such file or directory"), fs)
    end
|}.

Definition offline : exn := mkExn OtherException "Cannot send requests while disconnected".

(** The console next to these files, with no gateway connected; it refuses
    the texts that hold ["[/b]"], a closing tag none of the printed texts
    opens. *)
Definition client : Client (list (string * string)) := {|
  get_entity := fun _ fs => (Raise offline, fs);
  get_full_channel := fun _ fs => (Raise offline, fs);
  import_chat_invite := fun _ fs => (Raise offline, fs);
  join_channel := fun _ fs => (Raise offline, fs);
  random_random := fun fs => (0.5%float, fs);
  asyncio_sleep := fun _ fs => (Ok tt, fs);
  datetime_now := fun _ => 0%Z;
  progress := fun _ fs => fs;
  console_print := fun r fs =>
    match r with
    | Markup text =>
        if PyStr.contains "[/b]" text
        then (Raise (mkExn OtherException "closing tag '[/b]' doesn't match any open tag"), fs)
        else (Ok tt, fs)
    | Table _ _ _ => (Ok tt, fs)
    end
|}.

End MemFiles.

(** ** Saved accounts and settings (class [ConfigManager], lines 63-168) *)

(** A [dict] with [str] keys, in insertion order; the keys of a dict are
    distinct. *)
Module PyDict.

Section Dict.

Context {A : Type}.

(** [d.get(k)], and [d[k]] where it is known to be there *)
Fixpoint get (k : string) (d : list (string * A)) : option A :=
  match d with
  | [] => None
  | (k', v) :: d' => if (k' =? k)%string then Some v else get k d'
  end.

(** [k in d] *)
Definition mem (k : string) (d : list (string * A)) : bool :=
  match get k d with
  | Some _ => true
  | None => false
  end.

(** [d[k] = v]: the value of an old key is replaced where it stands, a new
    key goes to the end. *)
Fixpoint set (k : string) (v : A) (d : list (string * A)) : list (string * A) :=
  match d with
  | [] => [(k, v)]
  | (k', v') :: d' => if (k' =? k)%string then (k, v) :: d' else (k', v') :: set k v d'
  end.

(** [del d[k]] for a key of [d], and [d.pop(k, None)] *)
Definition del (k : string) (d : list (string * A)) : list (string * A) :=
  List.filter (fun kv => negb (fst kv =? k)%string) d.

(** [list(d)] *)
Definition keys (d : list (string * A)) : list string := List.map fst d.

End Dict.

End PyDict.

(** [sorted(l, key=key, reverse=True)]: by decreasing key, elements of
    equal keys in the order they had. *)
Module PyList.

Section Sorted.

Context {A : Type} (key : A -> Z).

Fixpoint insert_reverse (x : A) (l : list A) : list A :=
  match l with
  | [] => [x]
  | y :: l' => if (key y <=? key x)%Z then x :: l else y :: insert_reverse x l'
  end.

Definition sorted_reverse (l : list A) : list A := List.fold_right insert_reverse [] l.

End Sorted.

End PyList.

(** [AccountInfo] (lines 52-61) *)
Record AccountInfo : Type := {
  session_name : string;
  api_id : Z;
  api_hash : string;
  phone : option string;
  first_name : option string;
  username : option string;
  last_used : option Z
}.

(** An entry of [credentials.json] as lines 80-87 write it; [last_used] is
    [null] or the ISO text of a date. *)
Record Credential : Type := {
  cred_api_id : Z;
  cred_api_hash : string;
  cred_phone : option string;
  cred_first_name : option string;
  cred_username : option string;
  cred_last_used : option string
}.

(** The value of a setting. *)
Inductive setting : Type :=
| SBool (b : bool)
| SInt (n : Z)
| SFloat (x : float)
| SStr (s : string).

(** The two files of the configuration directory over a world [W]: whether
    the file exists, what [json.load] returns from it (or raises, with
    [open]), and [open(.., 'w')] followed by [json.dump].  The files hold
    dicts of the shapes above; reading does not change the world. *)
Record ConfigFiles (W : Type) : Type := {
  credentials_exists : W -> bool;
  credentials_load : W -> result (list (string * Credential));
  credentials_dump : list (string * Credential) -> W -> result unit * W;
  settings_exists : W -> bool;
  settings_load : W -> result (list (string * setting));
  settings_dump : list (string * setting) -> W -> result unit * W
}.

(** [datetime.isoformat], [datetime.fromisoformat] and [datetime.min]; a
    date is [aware] when it carries a time zone offset.  Dates of the same
    kind are ordered as their numbers are; comparing an aware date with one
    that is not raises [TypeError]. *)
Record Datetime : Type := {
  isoformat : Z -> string;
  fromisoformat : string -> result Z;
  datetime_min : Z;
  aware : Z -> bool
}.

Section ConfigManager.

Context {W : Type} (cfg : ConfigFiles W) (dt : Datetime).

Local Open Scope py_scope.

(** Reading a file: an observation of the world. *)
Definition observe {A} (f : W -> result A) : M W A := fun w => (f w, w, []).

(** The dict of lines 80-87. *)
Definition credential_of (account_info : AccountInfo) : Credential :=
  {| cred_api_id := api_id account_info;
     cred_api_hash := api_hash account_info;
     cred_phone := phone account_info;
     cred_first_name := first_name account_info;
     cred_username := username account_info;
     cred_last_used := match last_used account_info with
                       | Some d => Some (isoformat dt d)
                       | None => None
                       end |}.

(** [save_credentials] (lines 72-94) *)
Definition save_credentials (account_info : AccountInfo) : M W bool :=
  try_except
    (credentials <- (fun w => if credentials_exists cfg w
                              then observe (credentials_load cfg) w
                              else ret [] w) ;;
     let credentials :=
       PyDict.set (session_name account_info) (credential_of account_info) credentials in
     file_op (credentials_dump cfg credentials) ;;;
     ret true)
    [except_Exception (fun _ => ret false)].

(** The [AccountInfo(...)] of lines 109-117 and 133-141. *)
Definition account_of (name : string) (cred : Credential) : M W AccountInfo :=
  last <- (match cred_last_used cred with
           | Some text =>
               if (text =? "")%string then ret None
               else d <- observe (fun _ => fromisoformat dt text) ;; ret (Some d)
           | None => ret None
           end) ;;
  ret {| session_name := name;
         api_id := cred_api_id cred;
         api_hash := cred_api_hash cred;
         phone := cred_phone cred;
         first_name := cred_first_name cred;
         username := cred_username cred;
         last_used := last |}.

(** [get_credentials] (lines 96-120) *)
Definition get_credentials (name : string) : M W (option AccountInfo) :=
  try_except
    (fun w =>
       if negb (credentials_exists cfg w) then ret None w
       else (credentials <- observe (credentials_load cfg) ;;
             if negb (PyDict.mem name credentials) then ret None
             else match PyDict.get name credentials with
                  | Some cred => account <- account_of name cred ;; ret (Some account)
                  | None => ret None
                  end) w)
    [except_Exception (fun _ => ret None)].

(** The loop of lines 131-141. *)
Fixpoint accounts_loop (items : list (string * Credential)) (accounts : list AccountInfo)
    : M W (list AccountInfo) :=
  match items with
  | [] => ret accounts
  | (name, cred) :: rest =>
      account <- account_of name cred ;;
      accounts_loop rest (accounts ++ [account])
  end.

(** [x.last_used or datetime.min] *)
Definition last_used_key (a : AccountInfo) : Z :=
  match last_used a with
  | Some d => d
  | None => datetime_min dt
  end.

(** Whether the key of an account is an aware date; [datetime.min] is
    not. *)
Definition key_aware (a : AccountInfo) : bool :=
  match last_used a with
  | Some d => aware dt d
  | None => false
  end.

(** Whether the keys can be compared with one another: all aware, or none. *)
Definition comparable_keys (accounts : list AccountInfo) : bool :=
  match accounts with
  | [] => true
  | a :: rest => List.forallb (fun b => Bool.eqb (key_aware b) (key_aware a)) rest
  end.

Definition TypeError : exn :=
  mkExn OtherException "can't compare offset-naive and offset-aware datetimes".

(** [sorted(accounts, key=lambda x: x.last_used or datetime.min,
    reverse=True)] (line 143).  The sort meets every element in a
    comparison with one before it, so that it raises as soon as two keys
    are of different kinds. *)
Definition sorted_accounts (accounts : list AccountInfo) : M W (list AccountInfo) :=
  if comparable_keys accounts
  then ret (PyList.sorted_reverse last_used_key accounts)
  else fun w => (Raise TypeError, w, []).

(** [list_saved_accounts] (lines 122-146) *)
Definition list_saved_accounts : M W (list AccountInfo) :=
  try_except
    (fun w =>
       if negb (credentials_exists cfg w) then ret [] w
       else (credentials <- observe (credentials_load cfg) ;;
             accounts <- accounts_loop credentials [] ;;
             sorted_accounts accounts) w)
    [except_Exception (fun _ => ret [])].

(** [save_settings] (lines 148-156) *)
Definition save_settings (settings : list (string * setting)) : M W bool :=
  try_except
    (file_op (settings_dump cfg settings) ;;; ret true)
    [except_Exception (fun _ => ret false)].

(** [load_settings] (lines 158-168) *)
Definition load_settings : M W (list (string * setting)) :=
  try_except
    (fun w => if negb (settings_exists cfg w) then ret [] w
              else observe (settings_load cfg) w)
    [except_Exception (fun _ => ret [])].

End ConfigManager.

(** The credentials file stores what is written to it. *)
Definition credentials_stored {W} (cfg : ConfigFiles W) : Prop :=
  forall d w w',
    credentials_dump cfg d w = (Ok tt, w') ->
    credentials_exists cfg w' = true /\ credentials_load cfg w' = Ok d.

(** The date of an account survives the file: its ISO text is not empty and
    parses back to it. *)
Definition date_round_trip (dt : Datetime) (account : AccountInfo) : Prop :=
  match last_used account with
  | Some d => fromisoformat dt (isoformat dt d) = Ok d /\ isoformat dt d <> ""
  | None => True
  end.

(** The date of an entry is absent, empty or parses. *)
Definition date_parses (dt : Datetime) (cred : Credential) : Prop :=
  match cred_last_used cred with
  | Some text => text = "" \/ exists d, fromisoformat dt text = Ok d
  | None => True
  end.

(** What [credentials.json] holds for [save_credentials] to start from: the
    dict of the file, or the empty dict when there is no file. *)
Definition credentials_before {W} (cfg : ConfigFiles W) (w : W)
    : result (list (string * Credential)) :=
  if credentials_exists cfg w then credentials_load cfg w else Ok [].

(** The account an entry of the file stands for. *)
Definition parse_account (dt : Datetime) (name : string) (cred : Credential)
    : result AccountInfo :=
  match (match cred_last_used cred with
         | Some text =>
             if (text =? "")%string then Ok None
             else match fromisoformat dt text with
                  | Ok d => Ok (Some d)
                  | Raise e => Raise e
                  end
         | None => Ok None
         end) with
  | Ok last =>
      Ok {| session_name := name;
            api_id := cred_api_id cred;
            api_hash := cred_api_hash cred;
            phone := cred_phone cred;
            first_name := cred_first_name cred;
            username := cred_username cred;
            last_used := last |}
  | Raise e => Raise e
  end.

(** The accounts the entries of the file stand for, in the order of the
    file; one entry that does not parse fails them all. *)
Fixpoint parse_accounts (dt : Datetime) (items : list (string * Credential))
    : result (list AccountInfo) :=
  match items with
  | [] => Ok []
  | (name, cred) :: rest =>
      match parse_account dt name cred with
      | Raise e => Raise e
      | Ok account =>
          match parse_accounts dt rest with
          | Raise e => Raise e
          | Ok accounts => Ok (account :: accounts)
          end
      end
  end.

(** ** Deleting an account (NiftyJoiner.py, lines 593-637) *)

(** The session files and the connection of the client over a world [W]. *)
Record SessionEnv (W : Type) : Type := {
  session_file_exists : string -> W -> bool;
  session_file_unlink : string -> W -> result unit * W;
  client_disconnect : W -> result unit * W
}.

(** The fields of the joiner [delete_account] reads and clears:
    [self.current_account], and whether [self.client] is set. *)
Record JoinerState : Type := {
  current_account : option AccountInfo;
  has_client : bool
}.

(** [delete_account] (lines 593-637), up to its two last prints: the line
    of line 631 before [return True] and that of line 635 before
    [return False] are left out. *)
Definition delete_account {W} (cfg : ConfigFiles W) (env : SessionEnv W)
    (js : JoinerState) (name : string) : M W (bool * JoinerState) :=
  try_except
    (bind (fun w => if session_file_exists env (name ++ ".session") w
                    then file_op (session_file_unlink env (name ++ ".session")) w
                    else ret tt w) (fun _ =>
     bind (fun w => if credentials_exists cfg w
                    then bind (observe (credentials_load cfg)) (fun credentials =>
                           if PyDict.mem name credentials
                           then file_op (credentials_dump cfg (PyDict.del name credentials))
                           else ret tt) w
                    else ret tt w) (fun _ =>
     bind (load_settings cfg) (fun settings =>
     let session_specific_keys :=
       List.filter (PyStr.startswith (name ++ "_")) (PyDict.keys settings) in
     bind (match session_specific_keys with
           | [] => ret tt
           | _ :: _ =>
               bind (save_settings cfg
                       (List.fold_left (fun s key => PyDict.del key s)
                          session_specific_keys settings))
                    (fun _ => ret tt)
           end) (fun _ =>
     if match current_account js with
        | Some account => (session_name account =? name)%string
        | None => false
        end
     then bind (if has_client js then file_op (client_disconnect env) else ret tt)
               (fun _ => ret (true, {| current_account := None; has_client := false |}))
     else ret (true, js))))))
    [except_Exception (fun _ => ret (false, js))].

(** Nothing but a dump of the credentials changes what the credentials file
    holds: not the removal of a session file, a dump of the settings, or
    the disconnection. *)
Definition credentials_untouched {W} (cfg : ConfigFiles W) (env : SessionEnv W) : Prop :=
  (forall path w r w', session_file_unlink env path w = (r, w') ->
     credentials_exists cfg w' = credentials_exists cfg w
     /\ credentials_load cfg w' = credentials_load cfg w)
  /\ (forall s w r w', settings_dump cfg s w = (r, w') ->
        credentials_exists cfg w' = credentials_exists cfg w
        /\ credentials_load cfg w' = credentials_load cfg w)
  /\ (forall w r w', client_disconnect env w = (r, w') ->
        credentials_exists cfg w' = credentials_exists cfg w
        /\ credentials_load cfg w' = credentials_load cfg w).

(** Configuration files in memory: a file is absent or holds a dict. *)
Module MemConfig.

Record world : Type := {
  credentials : option (list (string * Credential));
  settings : option (list (string * setting))
}.

Definition missing : exn := mkExn OtherException "No such file or directory".

Definition files : ConfigFiles world := {|
  credentials_exists := fun w => match credentials w with Some _ => true | None => false end;
  credentials_load := fun w => match credentials w with Some d => Ok d | None => Raise missing end;
  credentials_dump := fun d w => (Ok tt, {| credentials := Some d; settings := settings w |});
  settings_exists := fun w => match settings w with Some _ => true | None => false end;
  settings_load := fun w => match settings w with Some d => Ok d | None => Raise missing end;
  settings_dump := fun d w => (Ok tt, {| credentials := credentials w; settings := Some d |})
|}.

Definition empty : world := {| credentials := None; settings := None |}.

(** Dates as seconds, written in decimal; only the epoch parses. *)
Definition dates : Datetime := {|
  isoformat := fun d => PyStr.str_of_int d;
  fromisoformat := fun text =>
    if (text =? "0")%string then Ok 0%Z
    else Raise (mkExn OtherException "Invalid isoformat string");
  datetime_min := (-1)%Z;
  aware := fun _ => false
|}.

(** The same dates, read as dates with an offset: the epoch parses to an
    aware date. *)
Definition zoned : Datetime := {|
  isoformat := fun d => PyStr.str_of_int d;
  fromisoformat := fun text =>
    if (text =? "0")%string then Ok 0%Z
    else Raise (mkExn OtherException "Invalid isoformat string");
  datetime_min := (-1)%Z;
  aware := fun d => (d =? 0)%Z
|}.

Definition alice : AccountInfo :=
  {| session_name := "alice"; api_id := 12345; api_hash := "0123abcd";
     phone := Some "+100000000"; first_name := Some "Alice"; username := None;
     last_used := Some 0%Z |}.

Definition bob : AccountInfo :=
  {| session_name := "bob"; api_id := 67890; api_hash := "89efcdab";
     phone := None; first_name := Some "Bob"; username := Some "bob";
     last_used := None |}.

(** An entry whose date is not an ISO text. *)
Definition carol : Credential :=
  {| cred_api_id := 1; cred_api_hash := "ff"; cred_phone := None;
     cred_first_name := None; cred_username := None;
     cred_last_used := Some "yesterday" |}.

Definition with_bad_date : world :=
  {| credentials := Some [("alice", credential_of dates alice); ("carol", carol)];
     settings := None |}.

(** No session file and no connection to close. *)
Definition sessions : SessionEnv world := {|
  session_file_exists := fun _ _ => false;
  session_file_unlink := fun _ w => (Ok tt, w);
  client_disconnect := fun w => (Ok tt, w)
|}.

Definition two_accounts : world :=
  {| credentials := Some [("bob", credential_of dates bob); ("alice", credential_of dates alice)];
     settings := Some [("alice_proxy", SStr "none"); ("log_level", SStr "INFO")] |}.

End MemConfig.

(** A configuration whose credentials file exists and cannot be read; the
    world tells whether the session file is there. *)
Module BrokenConfig.

Definition unreadable : exn := mkExn OtherException "Expecting value: line 1 column 1 (char 0)".

Definition files : ConfigFiles bool := {|
  credentials_exists := fun _ => true;
  credentials_load := fun _ => Raise unreadable;
  credentials_dump := fun _ w => (Ok tt, w);
  settings_exists := fun _ => false;
  settings_load := fun _ => Raise unreadable;
  settings_dump := fun _ w => (Ok tt, w)
|}.

Definition sessions : SessionEnv bool := {|
  session_file_exists := fun _ w => w;
  session_file_unlink := fun _ _ => (Ok tt, false);
  client_disconnect := fun w => (Ok tt, w)
|}.

End BrokenConfig.

(** ** A scripted client

    The world counts the requests served; the answers depend on the
    identifier asked for.  The console refuses the texts that hold
    ["[/b]"]: none of the texts the code prints opens a tag [b]. *)

Module Demo.

Definition flood (seconds : Z) : exn :=
  mkExn (FloodWaitError seconds)
        ("A wait of " ++ PyStr.str_of_int seconds ++ " seconds is required").

(** What the console of the script raises on a text that closes a tag [b]
    it has not opened, as rich does. *)
Definition markup_error : exn :=
  mkExn OtherException "closing tag '[/b]' doesn't match any open tag".

Definition client : Client nat := {|
  get_entity := fun name w =>
    if (name =? "ghost")%string
    then (Raise (mkExn OtherException "No user has 'ghost' as username"), S w)
    else if (name =? "offers")%string then (Ok {| title := "Offers [/b]" |}, S w)
    else (Ok {| title := name |}, S w);
  get_full_channel := fun _ w => (Ok {| participants_count := Some 42%Z |}, S w);
  import_chat_invite := fun hash w =>
    if (hash =? "EXPIRED")%string
    then (Raise (mkExn InviteHashExpiredError "The chat the user tried to join has expired"), S w)
    else (Ok {| chats := Some [ {| title := "Private group" |} ] |}, S w);
  join_channel := fun channel w =>
    if (channel =? "offers")%string then (Raise (flood 3600), S w)
    else if (channel =? "limited")%string then (Raise (flood 3600), S w)
    else if (channel =? "member")%string
    then (Raise (mkExn UserAlreadyParticipantError "The user is already a participant"), S w)
    else if (channel =? "ghost")%string
    then (Raise (mkExn OtherException "No user has 'ghost' as username"), S w)
    else (Ok tt, S w);
  random_random := fun w => (0.5%float, w);
  asyncio_sleep := fun _ w => (Ok tt, w);
  datetime_now := fun w => Z.of_nat w;
  progress := fun _ w => w;
  console_print := fun r w =>
    match r with
    | Markup text =>
        if PyStr.contains "[/b]" text then (Raise markup_error, w) else (Ok tt, w)
    | Table _ _ _ => (Ok tt, w)
    end
|}.

Definition links : list string :=
  [ "https://t.me/limited"; "https://t.me/alpha"; "https://t.me/+beta";
    "https://t.me/member"; "https://t.me/joinchat/EXPIRED"; "https://t.me/ghost" ].

End Demo.

(** * Properties *)

(** ** Examples of the specification *)

Example classify_joinchat :
  classify "https://t.me/joinchat/ABC123"
  = {| raw_link := "https://t.me/joinchat/ABC123"; kind := PrivateInvite; identifier := "ABC123" |}.
Proof. reflexivity. Qed.

Example classify_plus :
  classify "https://t.me/+XYZ789"
  = {| raw_link := "https://t.me/+XYZ789"; kind := PrivateInvite; identifier := "XYZ789" |}.
Proof. reflexivity. Qed.

Example classify_public :
  classify "https://t.me/publicgroup"
  = {| raw_link := "https://t.me/publicgroup"; kind := Public; identifier := "publicgroup" |}.
Proof. reflexivity. Qed.

Example split_examples :
  PyStr.split "/" "" = [""] /\ PyStr.split "/" "a/b" = ["a"; "b"]
  /\ PyStr.split "/" "a/" = ["a"; ""] /\ PyStr.split "/" "//x" = [""; ""; "x"].
Proof. repeat split. Qed.

Example replace_examples :
  PyStr.replace "+" "" "+AB+CD" = "ABCD"
  /\ PyStr.replace "aa" "b" "aaa" = "ba"
  /\ PyStr.replace "joinchat/" "" "xjoinchat/y" = "xy"
  /\ PyStr.str_of_int 3600 = "3600" /\ PyStr.str_of_int 0 = "0".
Proof. repeat split. Qed.

(** The end-to-end scenario of the specification: two targets, no pacing,
    both joined, in order. *)
Example end_to_end :
  run_result (join_groups_batch Demo.client ["https://t.me/alpha"; "https://t.me/+beta"] 0 false 0)
  = Ok [ {| link := "https://t.me/alpha"; success := true; error := None;
            group_name := Some "alpha"; member_count := Some 42%Z; join_time := Some 0%Z |};
         {| link := "https://t.me/+beta"; success := true; error := None;
            group_name := Some "Private group"; member_count := None; join_time := Some 3%Z |} ].
Proof. vm_compute. reflexivity. Qed.

(** ** Strings *)

Section StringFacts.

Local Open Scope string_scope.

Lemma append_assoc (a b c : string) : (a ++ b) ++ c = a ++ (b ++ c).
Proof. induction a as [|x a IH]; simpl; [reflexivity | now rewrite IH]. Qed.

Lemma startswith_spec (p s : string) :
  PyStr.startswith p s = true <-> StartsWith p s.
Proof.
  revert s. induction p as [|a p IH]; intros s; simpl.
  - split; [intros _; now exists s | reflexivity].
  - destruct s as [|b s].
    + split; [discriminate | intros [t Ht]; discriminate].
    + rewrite andb_true_iff, Ascii.eqb_eq, IH. split.
      * intros [-> [t ->]]. now exists t.
      * intros [t Ht]. simpl in Ht. injection Ht as -> ->. split; [reflexivity | now exists t].
Qed.

Lemma contains_spec (sub s : string) :
  PyStr.contains sub s = true <-> Substring sub s.
Proof.
  induction s as [|c s IH]; simpl.
  - rewrite startswith_spec. split.
    + intros [t Ht]. exists "", t. exact Ht.
    + intros [pre [post H]]. destruct pre; [|discriminate]. now exists post.
  - rewrite orb_true_iff, IH. change (PyStr.startswith sub (String c s) = true)
      with (PyStr.startswith sub (String c s) = true).
    rewrite (startswith_spec sub (String c s)). split.
    + intros [[t Ht] | [pre [post H]]].
      * exists "", t. exact Ht.
      * exists (String c pre), post. simpl. now rewrite H.
    + intros [pre [post H]]. destruct pre as [|x pre]; simpl in H.
      * left. now exists post.
      * right. injection H as _ H. now exists pre, post.
Qed.

Lemma contains_false (sub s : string) :
  PyStr.contains sub s = false <-> ~ Substring sub s.
Proof.
  rewrite <- contains_spec. destruct (PyStr.contains sub s); split; intros H;
    try reflexivity; try discriminate; exfalso; now apply H.
Qed.

Lemma contains_slash_cons (c : ascii) (s : string) :
  PyStr.contains "/" (String c s) = Ascii.eqb "/" c || PyStr.contains "/" s.
Proof. simpl. now rewrite andb_true_r. Qed.

Lemma split_not_nil (sep : ascii) (s : string) : PyStr.split sep s <> [].
Proof.
  destruct s as [|c s]; simpl; [discriminate |].
  destruct (Ascii.eqb c sep); [discriminate |].
  destruct (PyStr.split sep s); discriminate.
Qed.

(** Splitting at an occurrence of the separator. *)
Lemma split_app (sep : ascii) (pre seg : string) :
  PyStr.split sep (pre ++ String sep seg) = (PyStr.split sep pre ++ PyStr.split sep seg)%list.
Proof.
  induction pre as [|c pre IH]; simpl.
  - now rewrite Ascii.eqb_refl.
  - destruct (Ascii.eqb c sep); [now rewrite IH |].
    rewrite IH. pose proof (split_not_nil sep pre) as Hne.
    destruct (PyStr.split sep pre); [contradiction | reflexivity].
Qed.

Lemma split_no_sep (s : string) :
  PyStr.contains "/" s = false -> PyStr.split "/" s = [s].
Proof.
  induction s as [|c s IH]; [reflexivity |].
  rewrite contains_slash_cons, orb_false_iff. intros [Hc Hs]. simpl.
  rewrite Ascii.eqb_sym, Hc, (IH Hs). reflexivity.
Qed.

Lemma last_app_not_nil (A : Type) (l l' : list A) (d : A) :
  l' <> [] -> List.last (l ++ l') d = List.last l' d.
Proof.
  intros Hne. induction l as [|x l IH]; [reflexivity |].
  simpl. destruct (l ++ l')%list eqn:E; [|exact IH].
  apply app_eq_nil in E. destruct E as [_ E]. contradiction.
Qed.

Lemma channel_part_app (pre seg : string) :
  channel_part (pre ++ "/" ++ seg) = channel_part seg.
Proof.
  unfold channel_part, PyStr.last_item. simpl. rewrite split_app.
  apply last_app_not_nil, split_not_nil.
Qed.

Lemma channel_part_no_sep (s : string) :
  PyStr.contains "/" s = false -> channel_part s = s.
Proof. intros H. unfold channel_part. now rewrite (split_no_sep s H). Qed.

(** [channel_part] is the text after the last ['/'], and the only one. *)
Lemma final_segment_unique (link seg : string) :
  FinalSegment link seg -> seg = channel_part link.
Proof.
  intros [Hno [-> | [pre ->]]].
  - symmetry. now apply channel_part_no_sep, contains_false.
  - rewrite channel_part_app. symmetry. now apply channel_part_no_sep, contains_false.
Qed.

Lemma channel_part_final (link : string) : FinalSegment link (channel_part link).
Proof.
  induction link as [|c s [Hno Hsuf]].
  - split; [apply contains_false; reflexivity | now left].
  - destruct (Ascii.eqb c "/") eqn:Ec.
    + apply Ascii.eqb_eq in Ec. subst c.
      change (String "/" s) with ("" ++ "/" ++ s). rewrite channel_part_app.
      split; [exact Hno |]. right. destruct Hsuf as [Hs | [pre Hs]].
      * exists "". simpl. f_equal. exact Hs.
      * exists (String "/" pre). simpl. f_equal. exact Hs.
    + destruct Hsuf as [Hs | [pre Hs]].
      * assert (Hc : PyStr.contains "/" (String c s) = false).
        { rewrite contains_slash_cons, Ascii.eqb_sym, Ec. simpl.
          rewrite Hs. now apply contains_false. }
        rewrite (channel_part_no_sep _ Hc). split; [now apply contains_false | now left].
      * assert (E : String c s = String c pre ++ "/" ++ channel_part s)
          by (simpl; f_equal; exact Hs).
        assert (Hcp : channel_part (String c s) = channel_part s).
        { rewrite E, channel_part_app. now apply channel_part_no_sep, contains_false. }
        rewrite Hcp. split; [exact Hno |]. right. exists (String c pre). exact E.
Qed.

End StringFacts.

(** ** Classification *)

Lemma is_private_iff (link : string) :
  is_private link = true
  <-> Substring "joinchat" link \/ StartsWith "+" (channel_part link).
Proof.
  unfold is_private. now rewrite orb_true_iff, contains_spec, startswith_spec.
Qed.

(** C2. A link is a private invite exactly when it contains ["joinchat"] or
    its final path segment (the text after the last ['/']) starts with
    ['+']; every other link is public and its identifier is the final
    segment, unchanged. *)
Theorem classify_kind_iff (link seg : string) :
  FinalSegment link seg ->
  (kind (classify link) = PrivateInvite
   <-> Substring "joinchat" link \/ StartsWith "+" seg)
  /\ (~ (Substring "joinchat" link \/ StartsWith "+" seg) ->
      kind (classify link) = Public /\ identifier (classify link) = seg).
Proof.
  intros Hseg. apply final_segment_unique in Hseg. subst seg.
  rewrite <- is_private_iff. unfold classify.
  destruct (is_private link); simpl; split.
  - split; reflexivity.
  - intros H. exfalso. now apply H.
  - split; discriminate.
  - intros _. split; reflexivity.
Qed.

Lemma classify_kind_iff_witness :
  FinalSegment "https://t.me/+XYZ789" "+XYZ789"
  /\ kind (classify "https://t.me/+XYZ789") = PrivateInvite
  /\ FinalSegment "https://t.me/publicgroup" "publicgroup"
  /\ identifier (classify "https://t.me/publicgroup") = "publicgroup".
Proof.
  assert (H1 : FinalSegment "https://t.me/+XYZ789" "+XYZ789").
  { split; [apply contains_false; reflexivity | right; exists "https://t.me"; reflexivity]. }
  assert (H2 : FinalSegment "https://t.me/publicgroup" "publicgroup").
  { split; [apply contains_false; reflexivity | right; exists "https://t.me"; reflexivity]. }
  split; [exact H1 | split; [| split; [exact H2 |]]].
  - apply (proj1 (classify_kind_iff H1)). right. exists "XYZ789". reflexivity.
  - apply (proj2 (classify_kind_iff H2)). intros H.
    apply (proj2 (proj1 (classify_kind_iff H2))) in H. vm_compute in H. discriminate.
Defined.

Lemma replace_plus_remove (s : string) :
  PyStr.replace "+" "" s = remove_char "+" s.
Proof.
  unfold PyStr.replace. induction s as [|c s IH]; [reflexivity |].
  cbn [PyStr.replace_from PyStr.startswith remove_char String.length Nat.sub].
  rewrite andb_true_r. destruct (Ascii.eqb "+" c); simpl; now rewrite IH.
Qed.

Lemma replace_absent (old new s : string) :
  PyStr.contains old s = false -> PyStr.replace old new s = s.
Proof.
  unfold PyStr.replace. induction s as [|c s IH]; [reflexivity |].
  cbn [PyStr.contains PyStr.replace_from]. rewrite orb_false_iff. intros [H1 H2].
  rewrite H1, (IH H2). reflexivity.
Qed.

Lemma remove_char_no_slash (s : string) :
  PyStr.contains "/" s = false -> PyStr.contains "/" (remove_char "+" s) = false.
Proof.
  induction s as [|c s IH]; [reflexivity |].
  rewrite contains_slash_cons, orb_false_iff. intros [Hc Hs]. cbn [remove_char].
  destruct (Ascii.eqb "+" c); [now apply IH |].
  rewrite contains_slash_cons, Hc. now apply IH.
Qed.

(** What the code computes for every private link: the final segment with
    each ['+'] removed, wherever it stands; the replacement of
    ['joinchat/'] finds nothing to replace in a segment without ['/']. *)
Lemma invite_hash_removes_every_plus (link : string) :
  invite_hash link = remove_char "+" (channel_part link).
Proof.
  unfold invite_hash. rewrite replace_plus_remove.
  destruct (PyStr.contains "joinchat" link); [| reflexivity].
  apply replace_absent, contains_false. intros [pre [post H]].
  pose proof (proj1 (channel_part_final link)) as Hno.
  apply contains_false, remove_char_no_slash in Hno.
  apply contains_false in Hno. apply Hno.
  exists (pre ++ "joinchat")%string, post. rewrite H, append_assoc. reflexivity.
Qed.

(** C3. On ["https://t.me/+AB+CD"] the identifier handed to the invite
    import is ["ABCD"]: the ['+'] inside the final segment is removed with
    the leading one, where removing the leading ['+'] only gives ["AB+CD"]. *)
Theorem classify_inner_plus_removed :
  classify "https://t.me/+AB+CD"
  = {| raw_link := "https://t.me/+AB+CD"; kind := PrivateInvite; identifier := "ABCD" |}
  /\ strip_leading_plus (channel_part "https://t.me/+AB+CD") = "AB+CD"
  /\ identifier (classify "https://t.me/+XYZ789") = "XYZ789".
Proof. repeat split. Qed.

(** ** Traces *)

Lemma attempts_app (t t' : list event) : attempts (t ++ t') = attempts t ++ attempts t'.
Proof.
  induction t as [|[r|d] t IH]; simpl; [reflexivity | | exact IH].
  destruct (is_attempt r); simpl; now rewrite IH.
Qed.

Lemma attempts_lookup (t : list event) : forallb is_lookup t = true -> attempts t = [].
Proof.
  induction t as [|[r|d] t IH]; simpl; [reflexivity | | discriminate].
  rewrite andb_true_iff, negb_true_iff. intros [-> H]. now apply IH.
Qed.

Lemma waits_from_lookup (acc : list float) (t rest : list event) :
  forallb is_lookup t = true -> waits_from acc (t ++ rest) = waits_from acc rest.
Proof.
  induction t as [|[r|d] t IH]; simpl; [reflexivity | | discriminate].
  rewrite andb_true_iff, negb_true_iff. intros [-> H]. now apply IH.
Qed.

Lemma is_attempt_attempt_request (link : string) : is_attempt (attempt_request link) = true.
Proof. unfold attempt_request. now destruct (kind (classify link)). Qed.

(** The trace of one attempt, lookups then the request, closes a wait. *)
Lemma waits_from_attempt (acc : list float) (t rest : list event) (link : string) :
  forallb is_lookup t = true ->
  waits_from acc ((t ++ [Call (attempt_request link)]) ++ rest) = acc :: waits_from [] rest.
Proof.
  intros H. rewrite <- app_assoc, (waits_from_lookup _ _ _ H). simpl.
  now rewrite is_attempt_attempt_request.
Qed.

Lemma attempts_attempt (t : list event) (link : string) :
  forallb is_lookup t = true ->
  attempts (t ++ [Call (attempt_request link)]) = [attempt_request link].
Proof.
  intros H. rewrite attempts_app, (attempts_lookup _ H). simpl.
  now rewrite is_attempt_attempt_request.
Qed.

Lemma sleeps_app (t t' : list event) : sleeps (t ++ t') = sleeps t ++ sleeps t'.
Proof. induction t as [|[r|d] t IH]; simpl; [reflexivity | exact IH | now rewrite IH]. Qed.

Lemma calls_app (t t' : list event) : calls (t ++ t') = calls t ++ calls t'.
Proof. induction t as [|[r|d] t IH]; simpl; [reflexivity | now rewrite IH | exact IH]. Qed.

Lemma sleeps_lookup (t : list event) : forallb is_lookup t = true -> sleeps t = [].
Proof.
  induction t as [|[r|d] t IH]; simpl; [reflexivity | | discriminate].
  rewrite andb_true_iff. intros [_ H]. now apply IH.
Qed.


(** ** One target *)

Section JoinerFacts.

Context {W : Type} (client : Client W).


Lemma bind_run (A B : Type) (m : M W A) (f : A -> M W B) (w : W) :
  bind m f w
  = match m w with
    | (Ok a, w1, t1) => let '(r, w2, t2) := f a w1 in (r, w2, t1 ++ t2)
    | (Raise e, w1, t1) => (Raise e, w1, t1)
    end.
Proof. reflexivity. Qed.


Lemma get_group_info_private (link : string) (w : W) :
  is_private link = true -> get_group_info client link w = (Ok (None, None), w, []).
Proof.
  intros H. unfold get_group_info, try_except. fold (is_private link). now rewrite H.
Qed.

(** The lookup on a public link, by what the client answers. *)
Lemma get_group_info_public (link : string) (w : W) :
  is_private link = false ->
  get_group_info client link w =
    match get_entity client (channel_part link) w with
    | (Raise _, w1) => (Ok (None, None), w1, [Call (GetEntity (channel_part link))])
    | (Ok entity, w1) =>
        match get_full_channel client entity w1 with
        | (Raise _, w2) =>
            (Ok (None, None), w2,
             [Call (GetEntity (channel_part link)); Call (GetFullChannelRequest entity)])
        | (Ok full_channel, w2) =>
            (Ok (Some (title entity), participants_count full_channel), w2,
             [Call (GetEntity (channel_part link)); Call (GetFullChannelRequest entity)])
        end
    end.
Proof.
  intros H. unfold get_group_info, try_except, bind, call, ret, except_Exception.
  fold (is_private link). rewrite H. cbn [dispatch].
  destruct (get_entity client (channel_part link) w) as [[entity|e] w1]; [|reflexivity].
  destruct (get_full_channel client entity w1) as [[full|e] w2]; reflexivity.
Qed.

(** [get_group_info] returns, and its trace holds lookups only. *)
Lemma get_group_info_returns (link : string) (w : W) :
  exists info w1 t,
    get_group_info client link w = (Ok info, w1, t) /\ forallb is_lookup t = true.
Proof.
  destruct (is_private link) eqn:H.
  - exists (None, None), w, []. split; [now apply get_group_info_private | reflexivity].
  - rewrite (get_group_info_public link w H).
    destruct (get_entity client (channel_part link) w) as [[entity|e] w1].
    + destruct (get_full_channel client entity w1) as [[full|e] w2];
        eexists; eexists; eexists; split; reflexivity.
    + eexists; eexists; eexists; split; reflexivity.
Qed.

Lemma attempt_request_private (link : string) :
  is_private link = true -> attempt_request link = ImportChatInviteRequest (invite_hash link).
Proof. intros H. unfold attempt_request, classify. now rewrite H. Qed.

Lemma attempt_request_public (link : string) :
  is_private link = false -> attempt_request link = JoinChannelRequest (channel_part link).
Proof. intros H. unfold attempt_request, classify. now rewrite H. Qed.

(** The request of the attempt: one call, the one [classify] describes, and
    it raises exactly what the client signals. *)
Lemma join_request_signal (link : string) (gn : option string) (w : W) :
  exists gn',
    join_request client link gn w
    = (match fst (gateway_signal client link w) with
       | Ok _ => Ok gn'
       | Raise e => Raise e
       end,
       snd (gateway_signal client link w),
       [Call (attempt_request link)]).
Proof.
  unfold join_request, gateway_signal. fold (is_private link).
  destruct (is_private link) eqn:H.
  - rewrite (attempt_request_private link H). fold (invite_hash link).
    unfold bind, call.
    destruct (import_chat_invite client (invite_hash link) w) as [[res|e] w1]; cbn.
    + destruct (chats res) as [[|chat l]|]; cbn; eexists; reflexivity.
    + exists gn. reflexivity.
  - rewrite (attempt_request_public link H). unfold bind, call, ret.
    destruct (join_channel client (channel_part link) w) as [[[]|e] w1]; cbn;
      exists gn; reflexivity.
Qed.

Lemma dispatch_join_handlers (link : string) (gn : option string) (mc : option Z)
    (start : Z) (e : exn) :
  dispatch (join_handlers (W := W) link gn mc start) e
  = Some (handler_result link (failure_success e) (failure_detail e) gn mc start).
Proof.
  unfold join_handlers, failure_success, failure_detail, rate_limited_detail, except_Exception.
  cbn [dispatch]. destruct (cls e); reflexivity.
Qed.

(** [join_single_group] returns a [JoinResult] for its link whatever the
    client signals; its trace is the lookups followed by the one request. *)
Lemma join_single_group_spec (lnk : string) (w w1 : W) (info : option string * option Z)
    (t1 : list event) :
  get_group_info client lnk w = (Ok info, w1, t1) ->
  exists r,
    join_single_group client lnk w
    = (Ok r, snd (gateway_signal client lnk w1), t1 ++ [Call (attempt_request lnk)])
    /\ link r = lnk /\ member_count r = snd info
    /\ join_time r = Some (datetime_now client w)
    /\ match fst (gateway_signal client lnk w1) with
       | Ok _ => success r = true /\ error r = None
       | Raise e => success r = failure_success e /\ error r = Some (failure_detail e)
                    /\ group_name r = fst info
       end.
Proof.
  intros H. unfold join_single_group. rewrite H. destruct info as [gn mc].
  unfold try_except, bind. destruct (join_request_signal lnk gn w1) as [gn' ->].
  destruct (fst (gateway_signal client lnk w1)) as [[]|e].
  - cbn. eexists. split; [reflexivity |]. cbn. repeat split.
  - rewrite dispatch_join_handlers. cbn. rewrite ?app_nil_r.
    eexists. split; [reflexivity |]. cbn. repeat split.
Qed.

(** The outcome of an attempt on which the client raises [e]. *)
Lemma join_single_group_on_signal (lnk : string) (w : W) (e : exn) :
  fst (gateway_signal client lnk (run_world (get_group_info client lnk w))) = Raise e ->
  exists r,
    run_result (join_single_group client lnk w) = Ok r
    /\ link r = lnk /\ success r = failure_success e /\ error r = Some (failure_detail e).
Proof.
  intros He.
  destruct (get_group_info_returns lnk w) as (info & w1 & t1 & Hg & _).
  destruct (join_single_group_spec lnk w Hg) as (r & Hr & Hl & _ & _ & Hm).
  rewrite Hg in He. unfold run_world in He. cbn [fst snd] in He. rewrite He in Hm.
  destruct Hm as (Hs & Herr & _). exists r. rewrite Hr. now repeat split.
Qed.

Lemma join_single_group_returns (lnk : string) (w : W) :
  exists r w' t,
    join_single_group client lnk w = (Ok r, w', t ++ [Call (attempt_request lnk)])
    /\ forallb is_lookup t = true /\ link r = lnk.
Proof.
  destruct (get_group_info_returns lnk w) as (info & w1 & t1 & H & Ht).
  destruct (join_single_group_spec lnk w H) as (r & Hr & Hl & _).
  exists r, (snd (gateway_signal client lnk w1)), t1. now repeat split.
Qed.

(** The requests of one attempt: two lookups at most, then the request. *)
Lemma join_single_group_calls (lnk : string) (w : W) :
  (List.length (calls (run_trace (join_single_group client lnk w))) <= 3)%nat
  /\ (is_private lnk = true ->
      calls (run_trace (join_single_group client lnk w)) = [attempt_request lnk]).
Proof.
  destruct (get_group_info_returns lnk w) as (info & w1 & t1 & Hg & _).
  destruct (join_single_group_spec lnk w Hg) as (r0 & -> & _).
  unfold run_trace. cbn [snd]. rewrite calls_app. cbn [calls].
  destruct (is_private lnk) eqn:Hpr.
  - rewrite (get_group_info_private lnk w Hpr) in Hg.
    injection Hg as _ _ <-. split; [simpl; lia | reflexivity].
  - split; [| discriminate]. rewrite length_app. cbn [List.length].
    rewrite (get_group_info_public lnk w Hpr) in Hg.
    destruct (get_entity client (channel_part lnk) w) as [[ent|e] w2].
    + destruct (get_full_channel client ent w2) as [[full|e] w3];
        injection Hg as _ _ <-; simpl; lia.
    + injection Hg as _ _ <-. simpl. lia.
Qed.

Lemma join_single_group_calls_bound (lnk : string) (w wj : W) (r : JoinResult)
    (tj : list event) (a : request) :
  join_single_group client lnk w = (Ok r, wj, tj ++ [Call a]) ->
  (List.length (calls tj) <= 2)%nat.
Proof.
  intros Hj. pose proof (proj1 (join_single_group_calls lnk w)) as H. rewrite Hj in H.
  unfold run_trace in H. cbn [snd] in H. rewrite calls_app, length_app in H.
  cbn in H. lia.
Qed.

(** ** The batch loop *)

(** After the first attempt the pause is one sleep, of the delay the policy
    computes: the interval in minutes, times sixty. *)
Lemma pause_next (base : float) (rnd : bool) (i : nat) (w : W) :
  (0 < i)%nat ->
  exists x r w',
    pause client base rnd i w = (r, w', [Sleep (policy_delay_seconds base rnd x)]).
Proof.
  intros Hi. unfold pause. destruct (Nat.ltb_spec 0 i) as [_ | H]; [| lia].
  unfold bind, ret, on_progress, policy_delay_seconds. destruct rnd.
  - destruct (random_random client w) as [x w1]. cbv beta iota zeta.
    match goal with
    | |- context [asyncio_sleep client ?d ?w0] =>
        destruct (asyncio_sleep client d w0) as [r w2]
    end.
    exists x, r, w2. reflexivity.
  - cbv beta iota zeta.
    match goal with
    | |- context [asyncio_sleep client ?d ?w0] =>
        destruct (asyncio_sleep client d w0) as [r w2]
    end.
    exists 0%float, r, w2. reflexivity.
Qed.

(** The pause of a turn: nothing for the first link, one sleep of the
    policy for the others. *)
Lemma pause_run (base : float) (rnd : bool) (i : nat) (w : W) :
  exists rp wp tp,
    pause client base rnd i w = (rp, wp, tp)
    /\ ((i = 0%nat /\ rp = Ok tt /\ wp = w /\ tp = [])
        \/ ((0 < i)%nat /\ exists x, tp = [Sleep (policy_delay_seconds base rnd x)])).
Proof.
  destruct i as [|i].
  - exists (Ok tt), w, []. split; [reflexivity | left; auto].
  - destruct (pause_next base rnd w (Nat.lt_0_succ i)) as (x & r & w' & H).
    exists r, w', [Sleep (policy_delay_seconds base rnd x)].
    split; [exact H | right; split; [lia | now exists x]].
Qed.

(** One turn: when the pause returns, the attempt is made in
    [attempt_world] and its result is printed; the turn raises what the
    pause or the console raises. *)
Lemma batch_turn_run (base : float) (rnd : bool) (i : nat) (lnk : string) (w : W) :
  exists rp wp tp,
    pause client base rnd i w = (rp, wp, tp)
    /\ ((i = 0%nat /\ rp = Ok tt /\ wp = w /\ tp = [])
        \/ ((0 < i)%nat /\ exists x, tp = [Sleep (policy_delay_seconds base rnd x)]))
    /\ match rp with
       | Raise e => batch_turn client base rnd i lnk w = (Raise e, wp, tp)
       | Ok _ =>
           exists r wj tj rc wc,
             join_single_group client lnk (attempt_world client base rnd i lnk w)
             = (Ok r, wj, tj ++ [Call (attempt_request lnk)])
             /\ forallb is_lookup tj = true /\ link r = lnk
             /\ console_print client (Markup (result_line lnk r)) (progress client Advance wj)
                = (rc, wc)
             /\ batch_turn client base rnd i lnk w
                = (match rc with
                   | Ok _ => Ok r
                   | Raise e => Raise e
                   end, wc, tp ++ (tj ++ [Call (attempt_request lnk)]))
       end.
Proof.
  destruct (pause_run base rnd i w) as (rp & wp & tp & Hp & Hshape).
  exists rp, wp, tp. split; [exact Hp |]. split; [exact Hshape |].
  unfold batch_turn. rewrite bind_run, Hp. destruct rp as [[]|e]; [| reflexivity].
  unfold attempt_world. rewrite Hp. unfold run_world. cbn [fst snd].
  destruct (join_single_group_returns lnk (progress client (SetDescription ("Joining: " ++ lnk)) wp))
    as (r & wj & tj & Hj & Htj & Hl).
  destruct (console_print client (Markup (result_line lnk r)) (progress client Advance wj))
    as [rc wc] eqn:Hc.
  exists r, wj, tj, rc, wc. repeat split; try assumption.
  unfold bind, on_progress, on_console, ret. rewrite Hj, Hc.
  destruct rc as [[]|e]; cbn; now rewrite ?app_nil_r.
Qed.

(** One more link: the turn, then the loop on the rest. *)
Lemma batch_loop_cons (base : float) (rnd : bool) (i : nat) (lnk : string)
    (rest : list string) (results : list JoinResult) (w : W) :
  batch_loop client base rnd i (lnk :: rest) results w
  = match batch_turn client base rnd i lnk w with
    | (Ok r, w1, t1) =>
        let '(res, w', t') := batch_loop client base rnd (S i) rest (results ++ [r]) w1 in
        (res, w', t1 ++ t')
    | (Raise e, w1, t1) => (Raise e, w1, t1)
    end.
Proof. reflexivity. Qed.

(** What holds of the trace of the loop however it ends: every wait before
    an attempt is one sleep of the policy, there is one sleep a link at
    most and three requests a link at most. *)
Lemma batch_loop_trace_any (base : float) (rnd : bool) (links : list string) :
  forall (i : nat) (results : list JoinResult) (w : W),
    (0 < i)%nat ->
    let t := run_trace (batch_loop client base rnd i links results w) in
    Forall (paced base rnd) (waits t)
    /\ (List.length (waits t) <= List.length links)%nat
    /\ (exists xs, (List.length xs <= List.length links)%nat
                   /\ sleeps t = map (policy_delay_seconds base rnd) xs)
    /\ (List.length (calls t) <= 3 * List.length links)%nat.
Proof.
  induction links as [|lnk rest IH]; intros i results w Hi.
  - cbn. repeat split; [constructor | lia | now exists [] | lia].
  - cbv zeta. rewrite batch_loop_cons.
    destruct (batch_turn_run base rnd i lnk w) as (rp & wp & tp & Hp & Hshape & Hturn).
    destruct Hshape as [(-> & _) | (_ & x & ->)]; [lia |].
    destruct rp as [[]|e].
    + destruct Hturn as (r & wj & tj & rc & wc & Hj & Htj & Hl & Hc & ->).
      assert (Hcalls : (List.length (calls tj) <= 2)%nat).
      { eapply join_single_group_calls_bound; exact Hj. }
      destruct rc as [[]|e].
      * specialize (IH (S i) (results ++ [r]) wc (Nat.lt_0_succ i)). cbv zeta in IH.
        destruct (batch_loop client base rnd (S i) rest (results ++ [r]) wc) as [[res w'] t'].
        unfold run_trace in *. cbn [snd] in *.
        destruct IH as (Hw & Hlen & (xs & Hxs & Hs) & Hcl).
        unfold waits. cbn [app waits_from]. rewrite (waits_from_attempt _ _ _ _ Htj).
        repeat split.
        -- constructor; [now exists x | exact Hw].
        -- cbn [List.length]. fold (waits t'). lia.
        -- exists (x :: xs). split; [simpl; lia |].
           cbn [app sleeps map]. now rewrite !sleeps_app, (sleeps_lookup _ Htj), Hs.
        -- cbn [app calls]. rewrite !calls_app, !length_app. cbn [calls List.length]. lia.
      * unfold run_trace. cbn [snd]. unfold waits. cbn [app waits_from].
        rewrite <- (app_nil_r (tj ++ [Call (attempt_request lnk)])),
          (waits_from_attempt _ _ _ _ Htj).
        repeat split.
        -- repeat constructor. now exists x.
        -- simpl. lia.
        -- exists [x]. split; [simpl; lia |].
           cbn [app sleeps map]. now rewrite !sleeps_app, (sleeps_lookup _ Htj).
        -- cbn [app calls]. rewrite !calls_app, !length_app. cbn [calls List.length]. lia.
    + rewrite Hturn. unfold run_trace. cbn. repeat split; [constructor | lia | | lia].
      exists [x]. split; [simpl; lia | reflexivity].
Qed.

(** What holds of the loop when it returns: one result a link, in the order
    of the links, each the outcome of [join_single_group] on that link; the
    attempts issued in that order; one wait and one sleep a link; and the
    request of the last link at the end. *)
Lemma batch_loop_trace_ok (base : float) (rnd : bool) (links : list string) :
  forall (i : nat) (results rs' : list JoinResult) (w w' : W) (t : list event),
    batch_loop client base rnd i links results w = (Ok rs', w', t) ->
    exists rs,
      rs' = results ++ rs
      /\ Forall2 (fun l r => link r = l
                   /\ exists wi, run_result (join_single_group client l wi) = Ok r) links rs
      /\ attempts t = map attempt_request links
      /\ List.length (waits t) = List.length links
      /\ ((0 < i)%nat ->
          exists xs, List.length xs = List.length links
                     /\ sleeps t = map (policy_delay_seconds base rnd) xs)
      /\ match links with
         | [] => t = []
         | _ :: _ => exists t0, t = t0 ++ [Call (attempt_request (List.last links ""))]
         end.
Proof.
  induction links as [|lnk rest IH]; intros i results rs' w w' t H.
  - cbn in H. injection H as <- _ <-. exists []. rewrite app_nil_r.
    repeat split; [constructor | intros _; now exists []].
  - rewrite batch_loop_cons in H.
    destruct (batch_turn_run base rnd i lnk w) as (rp & wp & tp & Hp & Hshape & Hturn).
    destruct rp as [[]|e]; [| rewrite Hturn in H; discriminate].
    destruct Hturn as (r & wj & tj & rc & wc & Hj & Htj & Hl & Hc & Ht).
    rewrite Ht in H. destruct rc as [[]|e]; [| discriminate].
    destruct (batch_loop client base rnd (S i) rest (results ++ [r]) wc) as [[res w1] t1] eqn:E.
    injection H as -> <- <-.
    destruct (IH _ _ _ _ _ _ E) as (rs & -> & HF & Ha & Hw & Hs & Hlast).
    exists (r :: rs). rewrite <- app_assoc.
    assert (Hatt : attempts tp = [] /\ forall acc u, waits_from acc (tp ++ u) = waits_from (acc ++ sleeps tp) u).
    { destruct Hshape as [(_ & _ & _ & ->) | (_ & x & ->)]; split; try reflexivity;
        intros acc u; cbn; now rewrite ?app_nil_r. }
    destruct Hatt as [Hatt Hwt].
    repeat split.
    + constructor; [| exact HF]. split; [exact Hl |]. eexists. now rewrite Hj.
    + rewrite (attempts_app (tp ++ tj ++ [Call (attempt_request lnk)]) t1),
        (attempts_app tp), Hatt, (attempts_attempt _ _ Htj), Ha. reflexivity.
    + unfold waits. rewrite <- (app_assoc tp), Hwt, (waits_from_attempt _ _ _ _ Htj).
      cbn [List.length]. fold (waits t1). now rewrite Hw.
    + intros Hi. destruct Hshape as [(-> & _) | (_ & x & ->)]; [lia |].
      destruct (Hs (Nat.lt_0_succ i)) as (xs & Hlen & Hsl).
      exists (x :: xs). split; [simpl; now rewrite Hlen |].
      cbn [app sleeps map]. now rewrite !sleeps_app, (sleeps_lookup _ Htj), Hsl.
    + destruct rest as [|l2 rest'].
      * rewrite Hlast. exists (tp ++ tj). now rewrite app_nil_r, <- app_assoc.
      * destruct Hlast as (t0 & ->).
        exists ((tp ++ tj ++ [Call (attempt_request lnk)]) ++ t0).
        change (List.last (lnk :: l2 :: rest') "") with (List.last (l2 :: rest') "").
        now rewrite <- !app_assoc.
Qed.





Lemma Forall2_nth_error_left (A B : Type) (P : A -> B -> Prop) (l : list A) (l' : list B)
    (i : nat) (y : B) :
  Forall2 P l l' -> nth_error l' i = Some y -> exists x, nth_error l i = Some x /\ P x y.
Proof.
  intros H. revert i. induction H as [|x0 y0 l l' Hxy _ IH]; intros i Hi.
  - destruct i; discriminate.
  - destruct i as [|i]; simpl in Hi.
    + injection Hi as ->. now exists x0.
    + now apply IH.
Qed.

(** A successful outcome has no detail, or the one of a member. *)
Lemma join_single_group_success_detail (lnk : string) (w : W) (r : JoinResult) :
  run_result (join_single_group client lnk w) = Ok r -> success r = true ->
  error r = None \/ error r = Some "Already a member".
Proof.
  intros Hr Hs.
  destruct (get_group_info_returns lnk w) as (info & w1 & t1 & Hg & _).
  destruct (join_single_group_spec lnk w Hg) as (r0 & E & _ & _ & _ & Hm).
  rewrite E in Hr. injection Hr as <-.
  destruct (fst (gateway_signal client lnk w1)) as [[]|e].
  - left. apply Hm.
  - destruct Hm as (Hs' & He & _). right. rewrite He.
    rewrite Hs' in Hs. unfold failure_success in Hs. unfold failure_detail.
    destruct (cls e); try discriminate. reflexivity.
Qed.

(** ** The claims on runs *)

(** A run over a list that is not empty: the first attempt is made without
    a pause; when the console accepts its line the loop goes on over the
    rest, and the run raises otherwise. *)
Lemma join_groups_batch_cons (base : float) (rnd : bool) (lnk : string)
    (rest : list string) (w : W) :
  exists r wj tj rc wc,
    join_single_group client lnk
      (attempt_world client base rnd 0 lnk (loop_start client (lnk :: rest) w))
    = (Ok r, wj, tj ++ [Call (attempt_request lnk)])
    /\ forallb is_lookup tj = true /\ link r = lnk
    /\ console_print client (Markup (result_line lnk r)) (progress client Advance wj) = (rc, wc)
    /\ join_groups_batch client (lnk :: rest) base rnd w
       = match rc with
         | Ok _ =>
             let '(res, w', t') := batch_loop client base rnd 1 rest [r] wc in
             (res, progress client ProgressStop w', (tj ++ [Call (attempt_request lnk)]) ++ t')
         | Raise e =>
             (Raise e, progress client ProgressStop wc, tj ++ [Call (attempt_request lnk)])
         end.
Proof.
  unfold join_groups_batch. rewrite batch_loop_cons.
  destruct (batch_turn_run base rnd 0 lnk (loop_start client (lnk :: rest) w))
    as (rp & wp & tp & Hp & Hshape & Hturn).
  destruct Hshape as [(_ & -> & -> & ->) | (Hi & _)]; [| lia].
  destruct Hturn as (r & wj & tj & rc & wc & Hj & Htj & Hl & Hc & ->).
  exists r, wj, tj, rc, wc. repeat split; try assumption.
  destruct rc as [[]|e]; [| reflexivity]. cbn [app].
  now destruct (batch_loop client base rnd 1 rest [r] wc) as [[res w'] t'].
Qed.

(** The waits of a run, however it ends: none before the first attempt,
    the policy's delay before each of the others that is reached. *)
Lemma join_groups_batch_waits (base : float) (rnd : bool) (links : list string) (w : W) :
  match links with
  | [] => waits (run_trace (join_groups_batch client links base rnd w)) = []
  | _ :: rest =>
      exists ws,
        waits (run_trace (join_groups_batch client links base rnd w)) = [] :: ws
        /\ Forall (paced base rnd) ws
        /\ (List.length ws <= List.length rest)%nat
        /\ (forall rs, run_result (join_groups_batch client links base rnd w) = Ok rs ->
            List.length ws = List.length rest)
  end.
Proof.
  destruct links as [|lnk rest]; [reflexivity |].
  destruct (join_groups_batch_cons base rnd lnk rest w)
    as (r & wj & tj & rc & wc & Hj & Htj & Hl & Hc & ->).
  destruct rc as [[]|e].
  - pose proof (batch_loop_trace_any base rnd rest [r] wc (Nat.lt_0_succ 0)) as Hany.
    cbv zeta in Hany.
    destruct (batch_loop client base rnd 1 rest [r] wc) as [[res w'] t'] eqn:E.
    unfold run_trace, run_result in *. cbn [fst snd] in *.
    destruct Hany as (Hp & Hlen & _).
    exists (waits t'). unfold waits at 1. rewrite (waits_from_attempt _ _ _ _ Htj).
    repeat split; try assumption.
    intros rs ->.
    destruct (batch_loop_trace_ok _ _ _ _ _ _ E) as (rs' & _ & _ & _ & Hw & _).
    exact Hw.
  - exists []. unfold run_trace, run_result. cbn [fst snd]. unfold waits.
    rewrite <- (app_nil_r (tj ++ [Call (attempt_request lnk)])),
      (waits_from_attempt _ _ _ _ Htj).
    repeat split; [constructor | simpl; lia | discriminate].
Qed.


(** C4. Whatever the policy, nothing is waited before the first attempt:
    the trace of a run holds no sleep before the request of the first link,
    only the lookups of that link. *)
Theorem no_wait_before_first_attempt (lnk : string) (rest : list string) (base : float)
    (rnd : bool) (w : W) :
  exists ds ws t1 t2,
    waits (run_trace (join_groups_batch client (lnk :: rest) base rnd w)) = ds :: ws
    /\ ds = [] /\ total_wait ds = 0%float
    /\ run_trace (join_groups_batch client (lnk :: rest) base rnd w)
       = t1 ++ Call (attempt_request lnk) :: t2
    /\ forallb is_lookup t1 = true.
Proof.
  destruct (join_groups_batch_waits base rnd (lnk :: rest) w) as (ws & Hw & _).
  destruct (join_groups_batch_cons base rnd lnk rest w)
    as (r & wj & tj & rc & wc & Hj & Htj & Hl & Hc & E).
  rewrite E in *. destruct rc as [[]|e].
  - destruct (batch_loop client base rnd 1 rest [r] wc) as [[res w'] t'].
    exists [], ws, tj, t'. repeat split; try assumption.
    unfold run_trace. cbn [snd]. now rewrite <- app_assoc.
  - exists [], ws, tj, []. repeat split; assumption.
Qed.

(** C5, amended. With jitter disabled, every attempt of index [i > 0] that
    a run reaches is preceded by one sleep, of sixty times the configured
    base interval: the interval is in minutes and the sleep in seconds.
    When the run completes, every index below the number of links is
    reached. *)
Theorem fixed_delay_is_interval_minutes (links : list string) (base : float) (w : W) :
  (forall i ds,
      (0 < i)%nat ->
      nth_error (waits (run_trace (join_groups_batch client links base false w))) i = Some ds ->
      ds = [(base * 60)%float])
  /\ (forall rs i,
        run_result (join_groups_batch client links base false w) = Ok rs ->
        (0 < i)%nat -> (i < List.length links)%nat ->
        nth_error (waits (run_trace (join_groups_batch client links base false w))) i
        = Some [(base * 60)%float]).
Proof.
  pose proof (join_groups_batch_waits base false links w) as H.
  destruct links as [|lnk rest].
  - rewrite H. split; [intros [|i] ds _; discriminate | intros rs i _ _ Hi; simpl in Hi; lia].
  - destruct H as (ws & -> & Hp & _ & Hlen). split.
    + intros [|i] ds Hi Hn; [lia |]. cbn [nth_error] in Hn.
      apply nth_error_In in Hn. rewrite Forall_forall in Hp.
      destruct (Hp ds Hn) as (x & ->). reflexivity.
    + intros rs [|i] Hr H0 Hi; [lia |]. simpl in Hi. cbn [nth_error].
      specialize (Hlen rs Hr).
      destruct (nth_error ws i) as [ds|] eqn:Hn.
      * apply nth_error_In in Hn. rewrite Forall_forall in Hp.
        destruct (Hp ds Hn) as (x & ->). reflexivity.
      * apply nth_error_None in Hn. lia.
Qed.

(** C6, amended. A rate-limited attempt is recorded as a failed outcome
    whose detail names the wait the provider asks for, and that wait is not
    applied: the pause before the next attempt is the one sleep of the
    policy's delay (sixty times the base interval when jitter is off),
    whatever the provider asked for. *)
Theorem rate_limit_recorded_not_waited (links : list string) (base : float) (rnd : bool)
    (w : W) (i : nat) (r : JoinResult) (secs : Z) :
  nth_error (match run_result (join_groups_batch client links base rnd w) with
             | Ok rs => rs
             | Raise _ => []
             end) i = Some r ->
  error r = Some (rate_limited_detail secs) ->
  (S i < List.length links)%nat ->
  success r = false
  /\ (exists ds,
        nth_error (waits (run_trace (join_groups_batch client links base rnd w))) (S i) = Some ds
        /\ paced base rnd ds
        /\ (rnd = false -> ds = [(base * 60)%float]))
  /\ (forall lnk w0 e s,
        fst (gateway_signal client lnk (run_world (get_group_info client lnk w0))) = Raise e ->
        cls e = FloodWaitError s ->
        exists r0, run_result (join_single_group client lnk w0) = Ok r0
                   /\ success r0 = false /\ error r0 = Some (rate_limited_detail s)).
Proof.
  intros Hr Herr Hi.
  destruct (run_result (join_groups_batch client links base rnd w)) as [rs|e] eqn:Hrun;
    [| destruct i; discriminate].
  split; [| split].
  - unfold join_groups_batch, run_result in Hrun.
    destruct (batch_loop client base rnd 0 links [] (loop_start client links w))
      as [[res w1] t1] eqn:E.
    cbn [fst] in Hrun. subst res.
    destruct (batch_loop_trace_ok _ _ _ _ _ _ E) as (rs' & Hrs & HF & _).
    cbn in Hrs. subst rs'.
    destruct (Forall2_nth_error_left _ HF Hr) as (l & _ & _ & wi & Hj).
    destruct (success r) eqn:Hs; [| reflexivity].
    destruct (join_single_group_success_detail l wi Hj Hs) as [H | H];
      rewrite H in Herr; unfold rate_limited_detail in Herr; discriminate.
  - pose proof (join_groups_batch_waits base rnd links w) as H.
    destruct links as [|lnk rest]; [simpl in Hi; lia |].
    destruct H as (ws & -> & Hp & _ & Hlen). specialize (Hlen rs Hrun).
    simpl in Hi. cbn [nth_error].
    destruct (nth_error ws i) as [ds|] eqn:Hn; [| apply nth_error_None in Hn; lia].
    exists ds. apply nth_error_In in Hn. rewrite Forall_forall in Hp.
    specialize (Hp ds Hn). repeat split; try assumption.
    intros ->. destruct Hp as (x & ->). reflexivity.
  - intros lnk w0 e s He Hc.
    destruct (join_single_group_on_signal lnk w0 He) as (r0 & Hr0 & _ & Hs & Herr0).
    exists r0. unfold failure_success in Hs. unfold failure_detail in Herr0.
    rewrite Hc in Hs, Herr0. now repeat split.
Qed.

(** C7. When the client answers the attempt with the already-participant
    signal, the outcome for the target is a success carrying the detail
    "Already a member", not a failure. *)
Theorem already_participant_is_success (lnk : string) (w : W) (e : exn) :
  fst (gateway_signal client lnk (run_world (get_group_info client lnk w))) = Raise e ->
  cls e = UserAlreadyParticipantError ->
  exists r,
    run_result (join_single_group client lnk w) = Ok r
    /\ link r = lnk /\ success r = true /\ error r = Some "Already a member".
Proof.
  intros He Hc.
  destruct (join_single_group_on_signal lnk w He) as (r & Hr & Hl & Hs & Herr).
  exists r. unfold failure_success in Hs. unfold failure_detail in Herr.
  rewrite Hc in Hs, Herr. now repeat split.
Qed.

(** C9. The metadata lookup returns in every case and leaves the attempt to
    be made: for a private invite it returns absent metadata without asking
    the client anything; for a public link a failure of either lookup gives
    absent metadata; and the attempt of [join_single_group] is issued all
    the same. *)
Theorem metadata_lookup_never_blocks (lnk : string) (w : W) :
  (exists info w1 t, get_group_info client lnk w = (Ok info, w1, t)
                     /\ forallb is_lookup t = true)
  /\ (kind (classify lnk) = PrivateInvite ->
      get_group_info client lnk w = (Ok (None, None), w, []))
  /\ (forall e, kind (classify lnk) = Public ->
                fst (get_entity client (channel_part lnk) w) = Raise e ->
                run_result (get_group_info client lnk w) = Ok (None, None))
  /\ (forall entity w1 e, kind (classify lnk) = Public ->
                get_entity client (channel_part lnk) w = (Ok entity, w1) ->
                fst (get_full_channel client entity w1) = Raise e ->
                run_result (get_group_info client lnk w) = Ok (None, None))
  /\ (exists r, run_result (join_single_group client lnk w) = Ok r)
  /\ attempts (run_trace (join_single_group client lnk w)) = [attempt_request lnk].
Proof.
  assert (Hk : kind (classify lnk) = if is_private lnk then PrivateInvite else Public)
    by (unfold classify; now destruct (is_private lnk)).
  split; [apply get_group_info_returns |].
  split; [| split; [| split]].
  - intros H. apply get_group_info_private. rewrite Hk in H.
    now destruct (is_private lnk).
  - intros e H He. rewrite Hk in H. destruct (is_private lnk) eqn:Hp; [discriminate |].
    rewrite (get_group_info_public lnk w Hp).
    destruct (get_entity client (channel_part lnk) w) as [[entity|e'] w1];
      [discriminate | reflexivity].
  - intros entity w1 e H Hent He. rewrite Hk in H.
    destruct (is_private lnk) eqn:Hp; [discriminate |].
    rewrite (get_group_info_public lnk w Hp), Hent.
    destruct (get_full_channel client entity w1) as [[full|e'] w2];
      [discriminate | reflexivity].
  - destruct (join_single_group_returns lnk w) as (r & w' & t & -> & Ht & _).
    split; [now exists r |]. now apply attempts_attempt.
Qed.

End JoinerFacts.

(** ** The summary *)

Lemma count_success_bounds (results : list JoinResult) :
  (0 <= count_success results <= Z.of_nat (List.length results))%Z.
Proof.
  induction results as [|r rest IH]; [simpl; lia |].
  cbn [count_success List.length]. destruct (success r); lia.
Qed.

(** The summary of a list that is not empty. *)
Lemma summary_of_nonempty (results : list JoinResult) :
  results <> [] ->
  exists s, summary_of results = Ok s
            /\ successful s = count_success results
            /\ failed s = (Z.of_nat (List.length results) - count_success results)%Z
            /\ total s = Z.of_nat (List.length results)
            /\ failed_results s = List.filter (fun r => negb (success r)) results.
Proof.
  intros Hne. unfold summary_of, true_div.
  destruct (Z.eqb_spec (Z.of_nat (List.length results)) 0) as [E | _].
  - destruct results; [contradiction | simpl in E; lia].
  - eexists. split; [reflexivity |]. cbn. repeat split.
Qed.

Section SummaryFacts.

Context {W : Type} (client : Client W).

Lemma print_failed_returns (frs : list JoinResult) :
  (forall r w, In r (map (fun r => Markup (failed_line r)) frs) ->
               exists w', console_print client r w = (Ok tt, w')) ->
  forall w, exists w', print_failed client frs w = (Ok tt, w', []).
Proof.
  induction frs as [|r rest IH]; intros H w.
  - exists w. reflexivity.
  - cbn [print_failed]. rewrite bind_run. unfold on_console.
    destruct (H (Markup (failed_line r)) w) as [w1 ->]; [now left |].
    destruct (IH (fun r0 w0 Hin => H r0 w0 (or_intror Hin)) w1) as [w2 ->].
    exists w2. reflexivity.
Qed.

(** The summary is shown in full when the console accepts its table and
    the lines under it. *)
Lemma print_summary_returns (s : Summary) :
  summary_accepted client s ->
  forall w, exists w', print_summary client s w = (Ok s, w', []).
Proof.
  intros H w. unfold summary_accepted, summary_renderables in H.
  unfold print_summary. rewrite bind_run. unfold on_console at 1.
  destruct (H (summary_table s) w) as [w1 ->]; [now left |].
  rewrite bind_run. destruct (failed_results s) as [|r rest] eqn:Hf.
  - exists w1. reflexivity.
  - rewrite bind_run. unfold on_console at 1.
    destruct (H (Markup (String PyStr.newline "[red]Failed Attempts:[/red]")) w1) as [w2 ->];
      [right; now left |].
    destruct (print_failed_returns (r :: rest)
                (fun r0 w0 Hin => H r0 w0 (or_intror (or_intror Hin))) w2) as [w3 ->].
    exists w3. reflexivity.
Qed.

(** What [print_summary] returns, when it returns, is the summary it was
    given. *)
Lemma print_summary_result (s s' : Summary) (w w' : W) (t : list event) :
  print_summary client s w = (Ok s', w', t) -> s' = s.
Proof.
  unfold print_summary. rewrite bind_run.
  destruct (on_console client (summary_table s) w) as [[[[]|e] w1] t1]; [| discriminate].
  rewrite bind_run.
  destruct (match failed_results s with
            | [] => ret tt
            | _ :: _ =>
                bind (on_console client
                        (Markup (String PyStr.newline "[red]Failed Attempts:[/red]")))
                     (fun _ => print_failed client (failed_results s))
            end w1) as [[[[]|e] w2] t2]; [| discriminate].
  unfold ret. intros H. now injection H as <- _ _.
Qed.

(** C10. On a non-empty list the summary is computed and its two counts add
    up to the total, the length of the list: that summary is what the
    operation sends to the console, and what it has reported when it
    returns, which it does when the console accepts the table and the lines
    of the failed attempts.  On the empty list the first percentage divides
    by zero and the operation raises [ZeroDivisionError], with nothing
    printed. *)
Theorem summary_counts_or_zero_division :
  (forall results, results <> [] ->
     exists s, summary_of results = Ok s
               /\ (successful s + failed s = total s)%Z
               /\ total s = Z.of_nat (List.length results)
               /\ successful s = count_success results
               /\ (0 <= successful s)%Z /\ (0 <= failed s)%Z
               /\ (forall w, display_results_summary client results w = print_summary client s w)
               /\ (forall w s' w' t,
                     display_results_summary client results w = (Ok s', w', t) -> s' = s)
               /\ (summary_accepted client s ->
                   forall w, exists w',
                     display_results_summary client results w = (Ok s, w', [])))
  /\ (forall w, display_results_summary client [] w
                = (Raise (mkExn ZeroDivisionError "division by zero"), w, [])).
Proof.
  split; [| reflexivity].
  intros results Hne.
  destruct (summary_of_nonempty Hne) as (s & Hs & H1 & H2 & H3 & _).
  pose proof (count_success_bounds results) as Hb.
  exists s. unfold display_results_summary. rewrite Hs.
  repeat split; try lia.
  - intros w s' w' t. apply print_summary_result.
  - intros Hacc. apply print_summary_returns, Hacc.
Qed.

End SummaryFacts.

(** ** The claims at concrete runs *)




Lemma sleep_300_neq_5 : [300%float] <> [5%float].
Proof.
  intros H.
  apply (f_equal (fun l => match l with [x] => PrimFloat.eqb x 5 | _ => true end)) in H.
  vm_compute in H. discriminate.
Qed.

(** C5 as first stated fails: with a base interval of 5 and no jitter the
    sleep before the second attempt is of 300 seconds, not of 5. *)
Lemma fixed_delay_not_base_interval :
  ~ waits_base_interval 5
      (run_trace (join_groups_batch Demo.client
                    ["https://t.me/alpha"; "https://t.me/publicgroup"] 5 false 0)).
Proof.
  intros H. specialize (H 1%nat [300%float] (Nat.lt_0_succ 0) eq_refl).
  now apply sleep_300_neq_5.
Qed.

Lemma fixed_delay_is_interval_minutes_witness :
  (0 < 1)%nat /\ (1 < List.length Demo.links)%nat
  /\ nth_error (waits (run_trace (join_groups_batch Demo.client Demo.links 5 false 0))) 1
     = Some [300%float]
  /\ [300%float] = [(5 * 60)%float].
Proof.
  destruct (@fixed_delay_is_interval_minutes nat Demo.client Demo.links 5 0) as [HA HB].
  assert (H : nth_error (waits (run_trace (join_groups_batch Demo.client Demo.links 5 false 0))) 1
              = Some [300%float]).
  { eapply HB; [vm_compute; reflexivity | lia | simpl; lia]. }
  split; [lia | split; [simpl; lia | split; [exact H |]]].
  apply (HA 1%nat [300%float]); [lia | exact H].
Defined.

(** C6 as first stated fails: the first attempt is rate-limited for 3600
    seconds and the second is made after a sleep of 60 seconds. *)
Lemma rate_limit_wait_not_honoured :
  exists rs,
    run_result (join_groups_batch Demo.client ["https://t.me/limited"; "https://t.me/alpha"]
                  1 false 0) = Ok rs
    /\ ~ rate_limit_wait_honoured rs
         (run_trace (join_groups_batch Demo.client
                       ["https://t.me/limited"; "https://t.me/alpha"] 1 false 0)).
Proof.
  eexists. split; [vm_compute; reflexivity |].
  intros H. specialize (H 0%nat _ 3600%Z [60%float] eq_refl eq_refl eq_refl eq_refl).
  vm_compute in H. discriminate.
Qed.

Lemma rate_limit_recorded_not_waited_witness :
  success {| link := "https://t.me/limited"; success := false;
             error := Some "Rate limited. Wait 3600 seconds";
             group_name := Some "limited"; member_count := Some 42%Z;
             join_time := Some 0%Z |} = false
  /\ nth_error (waits (run_trace (join_groups_batch Demo.client Demo.links 1 false 0))) 1
     = Some [60%float].
Proof.
  destruct (@rate_limit_recorded_not_waited nat Demo.client Demo.links 1 false 0 0
              {| link := "https://t.me/limited"; success := false;
                 error := Some "Rate limited. Wait 3600 seconds";
                 group_name := Some "limited"; member_count := Some 42%Z;
                 join_time := Some 0%Z |} 3600 eq_refl eq_refl)
    as (Hs & (ds & Hds & _ & Hfix) & _); [simpl; lia |].
  split; [exact Hs |]. rewrite Hds, (Hfix eq_refl). reflexivity.
Defined.

Lemma already_participant_is_success_witness :
  exists r,
    run_result (join_single_group Demo.client "https://t.me/member" 0) = Ok r
    /\ link r = "https://t.me/member" /\ success r = true
    /\ error r = Some "Already a member".
Proof.
  apply (@already_participant_is_success nat Demo.client "https://t.me/member" 0
           (mkExn UserAlreadyParticipantError "The user is already a participant"));
    reflexivity.
Defined.

(** C8. A failed attempt can abort the run.  The group of the first link
    has the title ["Offers [/b]"] and the attempt on it is rate-limited:
    the gateway's error is caught and turned into the failed outcome of
    that link, which carries the title.  The line of that outcome is then
    sent to the console (line 473), which raises on the closing tag: the
    run ends there with the console's exception, returns no result, and the
    second link is never attempted.  With a first link rate-limited as well
    whose group has a plain title, the same run attempts both links and
    returns both outcomes. *)
Theorem failure_line_aborts_run :
  (exists r,
      run_result (join_single_group Demo.client "https://t.me/offers" 0) = Ok r
      /\ success r = false
      /\ error r = Some "Rate limited. Wait 3600 seconds"
      /\ group_name r = Some "Offers [/b]")
  /\ run_result (join_groups_batch Demo.client
                   ["https://t.me/offers"; "https://t.me/alpha"] 1 false 0)
     = Raise Demo.markup_error
  /\ attempts (run_trace (join_groups_batch Demo.client
                            ["https://t.me/offers"; "https://t.me/alpha"] 1 false 0))
     = [JoinChannelRequest "offers"]
  /\ (exists r1 r2,
        run_result (join_groups_batch Demo.client
                      ["https://t.me/limited"; "https://t.me/alpha"] 1 false 0)
        = Ok [r1; r2]
        /\ success r1 = false /\ success r2 = true)
  /\ attempts (run_trace (join_groups_batch Demo.client
                            ["https://t.me/limited"; "https://t.me/alpha"] 1 false 0))
     = [JoinChannelRequest "limited"; JoinChannelRequest "alpha"].
Proof.
  split; [eexists; split; [vm_compute; reflexivity | repeat split] |].
  split; [vm_compute; reflexivity |]. split; [vm_compute; reflexivity |].
  split; [| vm_compute; reflexivity].
  do 2 eexists. split; [vm_compute; reflexivity | split; reflexivity].
Qed.

Lemma metadata_lookup_never_blocks_witness :
  run_result (get_group_info Demo.client "https://t.me/ghost" 0) = Ok (None, None)
  /\ get_group_info Demo.client "https://t.me/+beta" 0 = (Ok (None, None), 0%nat, []).
Proof.
  split.
  - apply (proj1 (proj2 (proj2 (@metadata_lookup_never_blocks nat Demo.client
                                   "https://t.me/ghost" 0)))
             (mkExn OtherException "No user has 'ghost' as username"));
      reflexivity.
  - apply (proj1 (proj2 (@metadata_lookup_never_blocks nat Demo.client
                           "https://t.me/+beta" 0))).
    reflexivity.
Defined.

Lemma summary_counts_or_zero_division_witness :
  exists s w',
    display_results_summary Demo.client
      [ {| link := "https://t.me/alpha"; success := true; error := None;
           group_name := None; member_count := None; join_time := None |};
        {| link := "https://t.me/limited"; success := false;
           error := Some "Rate limited. Wait 3600 seconds";
           group_name := None; member_count := None; join_time := None |} ] 0
    = (Ok s, w', [])
    /\ (successful s + failed s = total s)%Z /\ total s = 2%Z.
Proof.
  destruct (proj1 (@summary_counts_or_zero_division nat Demo.client)
              [ {| link := "https://t.me/alpha"; success := true; error := None;
                   group_name := None; member_count := None; join_time := None |};
                {| link := "https://t.me/limited"; success := false;
                   error := Some "Rate limited. Wait 3600 seconds";
                   group_name := None; member_count := None; join_time := None |} ])
    as (s & Hs & Hsum & Htot & _ & _ & _ & _ & _ & Hret); [discriminate |].
  assert (Hacc : summary_accepted Demo.client s).
  { vm_compute in Hs. injection Hs as <-. intros r w Hin. exists w.
    cbn [summary_renderables failed_results map In] in Hin.
    repeat (destruct Hin as [<- | Hin]; [vm_compute; reflexivity |]). contradiction. }
  destruct (Hret Hacc 0%nat) as [w' E].
  exists s, w'. split; [exact E | split; [exact Hsum | exact Htot]].
Defined.

Example summary_of_two :
  summary_of
    [ {| link := "a"; success := true; error := None;
         group_name := None; member_count := None; join_time := None |};
      {| link := "b"; success := false; error := Some "x";
         group_name := None; member_count := None; join_time := None |} ]
  = Ok {| successful := 1; failed := 1; total := 2;
          successful_percentage := 50%float; failed_percentage := 50%float;
          failed_results :=
            [ {| link := "b"; success := false; error := Some "x";
                 group_name := None; member_count := None; join_time := None |} ] |}.
Proof. vm_compute. reflexivity. Qed.

(** * Further properties of the code *)

(** ** The links file *)

Example parse_links_example :
  parse_links
    (String.concat (String PyStr.newline "")
       [ "# my groups"; ""; "  https://t.me/alpha  "; "   "; "https://t.me/+beta";
         "  # not this one"; "https://t.me/x # kept whole" ])
  = [ "https://t.me/alpha"; "https://t.me/+beta"; "https://t.me/x # kept whole" ].
Proof. reflexivity. Qed.

Section LinkFileFacts.

Local Open Scope string_scope.

Lemma lstrip_suffix (s : string) : exists pre, s = pre ++ PyStr.lstrip s.
Proof.
  induction s as [|c s [pre IH]]; [now exists "" |]. simpl.
  destruct (PyStr.isspace c); [| now exists ""].
  exists (String c pre). simpl. now f_equal.
Qed.

Lemma rstrip_prefix (s : string) : exists post, s = PyStr.rstrip s ++ post.
Proof.
  induction s as [|c s [post IH]]; [now exists "" |]. simpl.
  destruct (PyStr.rstrip s) as [|b r] eqn:E.
  - destruct (PyStr.isspace c); [now exists (String c s) |].
    exists s. reflexivity.
  - exists post. simpl. f_equal. exact IH.
Qed.

Lemma substring_strip (sub s : string) : Substring sub (PyStr.strip s) -> Substring sub s.
Proof.
  unfold PyStr.strip. intros (pre & post & H).
  destruct (lstrip_suffix s) as [a Ha]. destruct (rstrip_prefix (PyStr.lstrip s)) as [b Hb].
  exists (a ++ pre), (post ++ b). rewrite Ha at 1. rewrite Hb at 1. rewrite H.
  now rewrite !append_assoc.
Qed.

Lemma lstrip_first (s : string) (c : ascii) (rest : string) :
  PyStr.lstrip s = String c rest -> PyStr.isspace c = false.
Proof.
  induction s as [|a s IH]; simpl; [discriminate |].
  destruct (PyStr.isspace a) eqn:E; [exact IH |]. intros H. injection H as <- _. exact E.
Qed.

Lemma rstrip_first (s : string) (c : ascii) (rest : string) :
  PyStr.rstrip s = String c rest -> exists rest', s = String c rest'.
Proof.
  destruct s as [|a s]; simpl; [discriminate |].
  destruct (PyStr.rstrip s); [destruct (PyStr.isspace a); [discriminate |] |];
    intros H; injection H as <- _; now exists s.
Qed.

Lemma rstrip_last (s pre : string) (c : ascii) :
  PyStr.rstrip s = pre ++ String c "" -> PyStr.isspace c = false.
Proof.
  revert pre. induction s as [|a s IH]; intros pre; simpl.
  - destruct pre; discriminate.
  - destruct (PyStr.rstrip s) as [|b r] eqn:E.
    + destruct (PyStr.isspace a) eqn:Ea; [destruct pre; discriminate |].
      destruct pre as [|x pre]; simpl; intros H.
      * injection H as <-. exact Ea.
      * injection H as _ H. destruct pre; discriminate.
    + destruct pre as [|x pre]; simpl; intros H; [discriminate |].
      injection H as _ H. now apply (IH pre).
Qed.

Lemma lstrip_id (s : string) :
  (forall c rest, s = String c rest -> PyStr.isspace c = false) -> PyStr.lstrip s = s.
Proof.
  destruct s as [|a s]; [reflexivity |]. intros H. simpl.
  now rewrite (H a s eq_refl).
Qed.

Lemma rstrip_id (s : string) :
  (forall pre c, s = pre ++ String c "" -> PyStr.isspace c = false) -> PyStr.rstrip s = s.
Proof.
  induction s as [|a s IH]; [reflexivity |]. intros H. simpl.
  destruct s as [|b s].
  - simpl. now rewrite (H "" a eq_refl).
  - rewrite IH; [reflexivity |]. intros pre c E. apply (H (String a pre) c).
    simpl. now rewrite E.
Qed.

Lemma substring_cons (sep c : ascii) (s : string) :
  Substring (String sep "") (String c s) <-> c = sep \/ Substring (String sep "") s.
Proof.
  split.
  - intros (pre & post & H). destruct pre as [|x pre]; simpl in H.
    + injection H as -> _. now left.
    + injection H as _ H. right. now exists pre, post.
  - intros [-> | (pre & post & H)].
    + now exists "", s.
    + exists (String c pre), post. simpl. now rewrite H.
Qed.

Lemma split_elements_no_sep (sep : ascii) (s : string) :
  Forall (fun x => ~ Substring (String sep "") x) (PyStr.split sep s).
Proof.
  assert (Hnil : ~ Substring (String sep "") "").
  { intros (pre & post & H). destruct pre; discriminate. }
  induction s as [|c s IH]; simpl.
  - constructor; [exact Hnil | constructor].
  - destruct (Ascii.eqb_spec c sep) as [-> | Hc]; [now constructor |].
    destruct (PyStr.split sep s) as [|hd tl]; [constructor; [| constructor] |].
    + rewrite substring_cons. intros [E | E]; [contradiction | now apply Hnil].
    + inversion IH as [|? ? Hhd Htl]. constructor; [| exact Htl].
      rewrite substring_cons. intros [E | E]; [contradiction | now apply Hhd].
Qed.

Lemma split_without_sep (sep : ascii) (s : string) :
  ~ Substring (String sep "") s -> PyStr.split sep s = [s].
Proof.
  induction s as [|c s IH]; [reflexivity |].
  rewrite substring_cons. intros H. simpl.
  destruct (Ascii.eqb_spec c sep) as [-> | Hc]; [exfalso; apply H; now left |].
  rewrite IH; [reflexivity |]. intros E. apply H. now right.
Qed.

Lemma keep_line_clean (line : string) :
  ~ Substring (String PyStr.newline "") line ->
  keep_line line = true -> clean_link (PyStr.strip line).
Proof.
  intros Hnl Hk. unfold keep_line in Hk.
  rewrite andb_true_iff, !negb_true_iff in Hk. destruct Hk as [Hne Hc].
  split; [| split; [| split; [| split]]].
  - intros E. rewrite E in Hne. discriminate.
  - exact Hc.
  - intros c rest E. unfold PyStr.strip in E.
    apply rstrip_first in E. destruct E as [rest' E']. now apply lstrip_first in E'.
  - intros pre c E. unfold PyStr.strip in E. now apply rstrip_last in E.
  - intros H. now apply Hnl, substring_strip.
Qed.

Lemma clean_link_strip (l : string) : clean_link l -> PyStr.strip l = l.
Proof.
  intros (_ & _ & Hf & Hl & _). unfold PyStr.strip.
  rewrite (lstrip_id Hf). now apply rstrip_id.
Qed.

Lemma clean_link_kept (l : string) : clean_link l -> parse_links l = [l].
Proof.
  intros H. pose proof (clean_link_strip H) as Hs. destruct H as (Hne & Hc & _ & _ & Hnl).
  unfold parse_links. rewrite (split_without_sep Hnl). cbn [List.filter].
  unfold keep_line. rewrite Hs, Hc.
  destruct (String.eqb_spec l ""); [contradiction |]. cbn. now rewrite Hs.
Qed.

Lemma parse_links_clean (content : string) : Forall clean_link (parse_links content).
Proof.
  unfold parse_links. apply Forall_forall. intros l Hl.
  apply in_map_iff in Hl. destruct Hl as (line & <- & Hin).
  apply filter_In in Hin. destruct Hin as [Hin Hk].
  apply keep_line_clean; [| exact Hk].
  pose proof (split_elements_no_sep PyStr.newline content) as HF.
  rewrite Forall_forall in HF. now apply HF.
Qed.

(** X1. Every link the file gives is a clean one: not empty, not a comment,
    without white space at either end and without a line feed. *)
Theorem loaded_links_are_clean (content l : string) :
  In l (parse_links content) -> clean_link l.
Proof.
  intros H. pose proof (parse_links_clean content) as HF.
  rewrite Forall_forall in HF. now apply HF.
Qed.

Lemma loaded_links_are_clean_witness :
  In "https://t.me/alpha" (parse_links "  https://t.me/alpha  ")
  /\ clean_link "https://t.me/alpha".
Proof.
  assert (H : In "https://t.me/alpha" (parse_links "  https://t.me/alpha  "))
    by (left; reflexivity).
  split; [exact H | exact (loaded_links_are_clean _ _ H)].
Defined.

(** X2. The links of a text are those of its lines, in order: the text
    before a line feed gives its links, then the text after it gives its
    own. *)
Theorem parse_links_line_feed (before after : string) :
  parse_links (before ++ String PyStr.newline after)
  = (parse_links before ++ parse_links after)%list.
Proof.
  unfold parse_links. now rewrite split_app, filter_app, map_app.
Qed.

Lemma parse_links_concat (ls : list string) :
  Forall clean_link ls -> parse_links (String.concat (String PyStr.newline "") ls) = ls.
Proof.
  induction 1 as [|l ls Hl Hls IH]; [reflexivity |].
  destruct ls as [|l' ls]; [now apply clean_link_kept |].
  cbn [String.concat]. cbn [String.concat] in IH.
  change (String PyStr.newline "" ++ ?x) with (String PyStr.newline x).
  rewrite parse_links_line_feed, IH, (clean_link_kept Hl). reflexivity.
Qed.

(** X3. Loading is idempotent: the links of a text, written back one per
    line, load to the same list. *)
Theorem parse_links_idempotent (content : string) :
  parse_links (String.concat (String PyStr.newline "") (parse_links content))
  = parse_links content.
Proof. apply parse_links_concat, parse_links_clean. Qed.

(** X4. The paths of [load_group_links].  Whenever it returns, it returns
    clean links only.  It returns the links of the text when the file is
    read.  When the file is missing it prints a notice, writes the template,
    prints a second notice and returns the empty list; when the file cannot
    be read it prints the error and returns the empty list; both as long as
    the console accepts the texts: the print of the handler is not guarded,
    and what it raises leaves the function.  The template itself holds no
    link. *)
Theorem load_group_links_paths (W : Type) (client : Client W) (files : Files W)
    (filename : string) (w : W) :
  (forall ls w' t,
      load_group_links client files filename w = (Ok ls, w', t) ->
      Forall clean_link ls /\ t = [])
  /\ (forall content w1,
        path_exists files filename w = true ->
        read_text files filename w = (Ok content, w1) ->
        load_group_links client files filename w = (Ok (parse_links content), w1, []))
  /\ (forall w1 w2 w3,
        path_exists files filename w = false ->
        console_print client (Markup (not_found_text filename)) w = (Ok tt, w1) ->
        write_text files filename links_template w1 = (Ok tt, w2) ->
        console_print client (Markup (template_created_text filename)) w2 = (Ok tt, w3) ->
        load_group_links client files filename w = (Ok [], w3, []))
  /\ (forall e w1 w2,
        path_exists files filename w = true ->
        read_text files filename w = (Raise e, w1) ->
        console_print client (Markup (error_loading_text e)) w1 = (Ok tt, w2) ->
        load_group_links client files filename w = (Ok [], w2, []))
  /\ (forall e w1 e' w2,
        path_exists files filename w = true ->
        read_text files filename w = (Raise e, w1) ->
        console_print client (Markup (error_loading_text e)) w1 = (Raise e', w2) ->
        load_group_links client files filename w = (Raise e', w2, []))
  /\ parse_links links_template = [].
Proof.
  unfold load_group_links, try_except, bind, file_op, ret, on_console, except_Exception.
  cbn [dispatch].
  split; [| split; [| split; [| split; [| split]]]].
  - intros ls w' t. destruct (path_exists files filename w); cbn [negb].
    + destruct (read_text files filename w) as [[content|e] w1].
      * intros H. injection H as <- _ <-. split; [apply parse_links_clean | reflexivity].
      * destruct (console_print client (Markup (error_loading_text e)) w1) as [[[]|e'] w2];
          intros H; [| discriminate].
        injection H as <- _ <-. split; [constructor | reflexivity].
    + destruct (console_print client (Markup (not_found_text filename)) w) as [[[]|e1] w1].
      * destruct (write_text files filename links_template w1) as [[[]|e2] w2].
        -- destruct (console_print client (Markup (template_created_text filename)) w2)
             as [[[]|e3] w3].
           ++ intros H. injection H as <- _ <-. split; [constructor | reflexivity].
           ++ destruct (console_print client (Markup (error_loading_text e3)) w3)
                as [[[]|e'] w4]; intros H; [| discriminate].
              injection H as <- _ <-. split; [constructor | reflexivity].
        -- destruct (console_print client (Markup (error_loading_text e2)) w2)
             as [[[]|e'] w3]; intros H; [| discriminate].
           injection H as <- _ <-. split; [constructor | reflexivity].
      * destruct (console_print client (Markup (error_loading_text e1)) w1)
          as [[[]|e'] w2]; intros H; [| discriminate].
        injection H as <- _ <-. split; [constructor | reflexivity].
  - intros content w1 -> ->. reflexivity.
  - intros w1 w2 w3 -> H1 H2 H3. cbn [negb]. rewrite H1, H2, H3. reflexivity.
  - intros e w1 w2 -> -> H. cbn [negb]. rewrite H. reflexivity.
  - intros e w1 e' w2 -> -> H. cbn [negb]. rewrite H. reflexivity.
  - reflexivity.
Qed.

End LinkFileFacts.

Lemma load_group_links_paths_witness :
  load_group_links MemFiles.client MemFiles.files "links.txt" []
  = (Ok [], [("links.txt", links_template)], [])
  /\ load_group_links MemFiles.client MemFiles.files "links.txt"
       [("links.txt", links_template)]
     = (Ok [], [("links.txt", links_template)], [])
  /\ load_group_links MemFiles.client MemFiles.files "links.txt"
       [("notes.txt", "x"); ("links.txt", " https://t.me/alpha ")]
     = (Ok ["https://t.me/alpha"],
        [("notes.txt", "x"); ("links.txt", " https://t.me/alpha ")], []).
Proof.
  split; [| split].
  - apply (proj1 (proj2 (proj2 (load_group_links_paths MemFiles.client MemFiles.files
                                  "links.txt" []))) [] [("links.txt", links_template)]);
      reflexivity.
  - rewrite <- (proj2 (proj2 (proj2 (proj2 (proj2
        (load_group_links_paths MemFiles.client MemFiles.files "links.txt" [])))))) at 1.
    apply (proj1 (proj2 (load_group_links_paths MemFiles.client MemFiles.files "links.txt"
                           [("links.txt", links_template)])));
      reflexivity.
  - apply (proj1 (proj2 (load_group_links_paths MemFiles.client MemFiles.files "links.txt"
                           [("notes.txt", "x"); ("links.txt", " https://t.me/alpha ")]))
             " https://t.me/alpha ");
      reflexivity.
Defined.

(** ** More on attempts and runs *)

Section RunFacts.

Context {W : Type} (client : Client W).

(** The request of the attempt, by what the client answers. *)
Lemma join_request_value (lnk : string) (gn : option string) (w : W) :
  join_request client lnk gn w
  = if is_private lnk
    then match import_chat_invite client (invite_hash lnk) w with
         | (Ok res, w1) =>
             (Ok (match chats res with
                  | Some (chat :: _) => Some (title chat)
                  | _ => gn
                  end), w1, [Call (ImportChatInviteRequest (invite_hash lnk))])
         | (Raise e, w1) => (Raise e, w1, [Call (ImportChatInviteRequest (invite_hash lnk))])
         end
    else match join_channel client (channel_part lnk) w with
         | (Ok _, w1) => (Ok gn, w1, [Call (JoinChannelRequest (channel_part lnk))])
         | (Raise e, w1) => (Raise e, w1, [Call (JoinChannelRequest (channel_part lnk))])
         end.
Proof.
  unfold join_request. fold (is_private lnk). fold (invite_hash lnk).
  destruct (is_private lnk); unfold bind, call, ret.
  - destruct (import_chat_invite client (invite_hash lnk) w) as [[res|e] w1]; [| reflexivity].
    now destruct (chats res) as [[|chat l]|].
  - now destruct (join_channel client (channel_part lnk) w) as [[[]|e] w1].
Qed.

(** The metadata of an outcome: those of the lookup, but for the title a
    successful invite import supplies. *)
Lemma join_single_group_metadata (lnk : string) (w w1 : W)
    (info : option string * option Z) (t1 : list event) (r : JoinResult) :
  get_group_info client lnk w = (Ok info, w1, t1) ->
  run_result (join_single_group client lnk w) = Ok r ->
  member_count r = snd info
  /\ (group_name r = fst info
      \/ is_private lnk = true /\ error r = None
         /\ exists res w2 chat l,
              import_chat_invite client (invite_hash lnk) w1 = (Ok res, w2)
              /\ chats res = Some (chat :: l) /\ group_name r = Some (title chat)).
Proof.
  intros Hg Hr. unfold join_single_group in Hr. rewrite Hg in Hr. destruct info as [gn mc].
  unfold try_except, bind in Hr. rewrite join_request_value in Hr.
  destruct (is_private lnk) eqn:Hp.
  - destruct (import_chat_invite client (invite_hash lnk) w1) as [[res|e] w2] eqn:Hi.
    + cbn in Hr. injection Hr as <-. cbn. split; [reflexivity |].
      destruct (chats res) as [[|chat l]|] eqn:Hc; try (now left).
      right. repeat split. now exists res, w2, chat, l.
    + rewrite dispatch_join_handlers in Hr. cbn in Hr. injection Hr as <-.
      split; [reflexivity | now left].
  - destruct (join_channel client (channel_part lnk) w1) as [[[]|e] w2].
    + cbn in Hr. injection Hr as <-. split; [reflexivity | now left].
    + rewrite dispatch_join_handlers in Hr. cbn in Hr. injection Hr as <-.
      split; [reflexivity | now left].
Qed.

(** The shape of an outcome, whatever the client does. *)
Lemma join_single_group_outcome (lnk : string) (w : W) (r : JoinResult) :
  run_result (join_single_group client lnk w) = Ok r ->
  link r = lnk /\ join_time r = Some (datetime_now client w)
  /\ (success r = false -> exists msg, error r = Some msg)
  /\ (success r = true -> error r = None \/ error r = Some "Already a member").
Proof.
  intros Hr.
  destruct (get_group_info_returns client lnk w) as (info & w1 & t1 & Hg & _).
  destruct (join_single_group_spec client lnk w Hg) as (r0 & E & Hl & _ & Ht & Hm).
  pose proof Hr as Hr'. rewrite E in Hr'. injection Hr' as <-.
  repeat split; try assumption.
  - intros Hs. destruct (fst (gateway_signal client lnk w1)) as [[]|e].
    + destruct Hm as [Hm _]. congruence.
    + destruct Hm as (_ & He & _). eauto.
  - now apply (join_single_group_success_detail client lnk w).
Qed.

Lemma kind_private_iff (lnk : string) :
  kind (classify lnk) = PrivateInvite <-> is_private lnk = true.
Proof. unfold classify. destruct (is_private lnk); simpl; split; congruence. Qed.

Lemma kind_public_iff (lnk : string) :
  kind (classify lnk) = Public <-> is_private lnk = false.
Proof. unfold classify. destruct (is_private lnk); simpl; split; congruence. Qed.

(** X5. Every outcome of a run is stamped with a time; a failed one always
    carries an error text, and a successful one carries none, or the text
    of a member. *)
Theorem run_outcomes_consistent (links : list string) (base : float) (rnd : bool) (w : W)
    (rs : list JoinResult) :
  run_result (join_groups_batch client links base rnd w) = Ok rs ->
  Forall (fun r => join_time r <> None
                   /\ (success r = false -> exists msg, error r = Some msg)
                   /\ (success r = true ->
                       error r = None \/ error r = Some "Already a member")) rs.
Proof.
  intros Hr. unfold join_groups_batch, run_result in Hr.
  destruct (batch_loop client base rnd 0 links [] (loop_start client links w))
    as [[res w1] t1] eqn:E.
  cbn [fst] in Hr. subst res.
  destruct (batch_loop_trace_ok client _ _ _ _ _ _ E) as (rs' & Hrs & HF & _).
  cbn in Hrs. subst rs'. clear E.
  induction HF as [|l r links rs' (_ & wi & Hj) _ IH]; constructor; [| exact IH].
  destruct (join_single_group_outcome l wi Hj) as (_ & Ht & Hf & Hs).
  split; [rewrite Ht; discriminate | now split].
Qed.

(** X6. For a private invite the member count is never known, and the group
    name is known only when the import succeeded: every outcome with an
    error text has neither. *)
Theorem private_invite_metadata (lnk : string) (w : W) (r : JoinResult) :
  kind (classify lnk) = PrivateInvite ->
  run_result (join_single_group client lnk w) = Ok r ->
  member_count r = None /\ (error r <> None -> group_name r = None).
Proof.
  intros Hk Hr. apply kind_private_iff in Hk.
  pose proof (get_group_info_private client lnk w Hk) as Hg.
  destruct (join_single_group_metadata lnk w Hg Hr) as [Hm [Hn | (_ & He & _)]].
  - split; [exact Hm | intros _; exact Hn].
  - split; [exact Hm | intros H; contradiction].
Qed.

(** X7. For a public link the outcome reports what the lookup found, the
    group name and the member count, whether the join succeeds or fails. *)
Theorem public_metadata_from_lookup (lnk : string) (w w1 : W)
    (info : option string * option Z) (t1 : list event) (r : JoinResult) :
  kind (classify lnk) = Public ->
  get_group_info client lnk w = (Ok info, w1, t1) ->
  run_result (join_single_group client lnk w) = Ok r ->
  group_name r = fst info /\ member_count r = snd info.
Proof.
  intros Hk Hg Hr. apply kind_public_iff in Hk.
  destruct (join_single_group_metadata lnk w Hg Hr) as [Hm [Hn | (Hp & _)]].
  - now split.
  - congruence.
Qed.

(** The sleeps and the requests of a whole run: one sleep of the policy a
    link after the first at most, three requests a link at most; when the
    run returns every sleep was made, and the trace ends with the request
    of the last link. *)
Lemma join_groups_batch_trace (base : float) (rnd : bool) (lnk : string)
    (rest : list string) (w : W) :
  exists xs,
    (List.length xs <= List.length rest)%nat
    /\ sleeps (run_trace (join_groups_batch client (lnk :: rest) base rnd w))
       = map (policy_delay_seconds base rnd) xs
    /\ (List.length (calls (run_trace (join_groups_batch client (lnk :: rest) base rnd w)))
        <= 3 * List.length (lnk :: rest))%nat
    /\ (forall rs,
          run_result (join_groups_batch client (lnk :: rest) base rnd w) = Ok rs ->
          List.length xs = List.length rest
          /\ exists t0, run_trace (join_groups_batch client (lnk :: rest) base rnd w)
                        = t0 ++ [Call (attempt_request (List.last (lnk :: rest) ""))]).
Proof.
  destruct (join_groups_batch_cons client base rnd lnk rest w)
    as (r & wj & tj & rc & wc & Hj & Htj & Hl & Hc & ->).
  assert (Hcalls : (List.length (calls tj) <= 2)%nat)
    by (eapply join_single_group_calls_bound; exact Hj).
  destruct rc as [[]|e].
  - pose proof (batch_loop_trace_any client base rnd rest [r] wc (Nat.lt_0_succ 0)) as Hany.
    cbv zeta in Hany.
    destruct (batch_loop client base rnd 1 rest [r] wc) as [[res w'] t'] eqn:E.
    unfold run_trace, run_result in *. cbn [fst snd] in *.
    destruct Hany as (_ & _ & (xs & Hlen & Hs) & Hcl).
    exists xs. rewrite !sleeps_app, (sleeps_lookup _ Htj), !calls_app, !length_app.
    cbn [sleeps calls app List.length].
    split; [exact Hlen | split; [exact Hs | split; [lia |]]].
    intros rs ->.
    destruct (batch_loop_trace_ok client _ _ _ _ _ _ E)
      as (rs' & _ & _ & _ & _ & Hsl & Hlast).
    destruct (Hsl (Nat.lt_0_succ 0)) as (xs' & Hlen' & Hs').
    split.
    + rewrite Hs in Hs'. apply (f_equal (@List.length float)) in Hs'.
      rewrite !length_map in Hs'. congruence.
    + destruct rest as [|l2 rest'].
      * rewrite Hlast. exists tj. now rewrite app_nil_r.
      * destruct Hlast as (t0 & ->). exists ((tj ++ [Call (attempt_request lnk)]) ++ t0).
        change (List.last (lnk :: l2 :: rest') "") with (List.last (l2 :: rest') "").
        now rewrite <- !app_assoc.
  - exists []. unfold run_trace, run_result. cbn [fst snd].
    rewrite sleeps_app, (sleeps_lookup _ Htj), calls_app, length_app.
    cbn [sleeps calls app List.length map].
    split; [lia | split; [reflexivity | split; [lia | discriminate]]].
Qed.


(** X9. An attempt sends three requests at most, and for a private invite
    the invite import alone; a run over N links sends 3 N requests at
    most. *)
Theorem request_budget :
  (forall lnk w,
      (List.length (calls (run_trace (join_single_group client lnk w))) <= 3)%nat
      /\ (kind (classify lnk) = PrivateInvite ->
          calls (run_trace (join_single_group client lnk w))
          = [ImportChatInviteRequest (identifier (classify lnk))]))
  /\ (forall links base rnd w,
        (List.length (calls (run_trace (join_groups_batch client links base rnd w)))
         <= 3 * List.length links)%nat).
Proof.
  split.
  - intros lnk w. destruct (join_single_group_calls client lnk w) as [H1 H2].
    split; [exact H1 |]. intros Hk. pose proof Hk as Hp. apply kind_private_iff in Hp.
    rewrite (H2 Hp). unfold attempt_request. now rewrite Hk.
  - intros [|lnk rest] base rnd w; [cbn; lia |].
    destruct (join_groups_batch_trace base rnd lnk rest w) as (xs & _ & _ & Hc & _).
    exact Hc.
Qed.


End RunFacts.

(** X10. A link that ends with ['/'] has an empty final segment: whatever
    stands before the slash, the identifier sent to the client is the empty
    string. *)
Theorem trailing_slash_empty_identifier (pre : string) :
  identifier (classify (pre ++ "/")) = "".
Proof.
  assert (H : channel_part (pre ++ "/") = "") by apply (channel_part_app pre "").
  unfold classify. destruct (is_private (pre ++ "/")); cbn [identifier].
  - now rewrite invite_hash_removes_every_plus, H.
  - exact H.
Qed.

Lemma count_success_filter (results : list JoinResult) :
  count_success results = Z.of_nat (List.length (List.filter success results))
  /\ (Z.of_nat (List.length results) - count_success results)%Z
     = Z.of_nat (List.length (List.filter (fun r => negb (success r)) results)).
Proof.
  induction results as [|r rest [IH1 IH2]]; [split; reflexivity |].
  cbn [count_success List.filter List.length]. destruct (success r); cbn [negb List.length]; lia.
Qed.

(** X12. In a summary the count of failures is the number of entries listed
    as failed attempts; these are the outcomes without success, each of
    them, in the order of the results; and the count of successes is the
    number of outcomes with success.  The summary is the one
    [display_results_summary] sends to the console. *)
Theorem summary_lists_the_failures (W : Type) (client : Client W)
    (results : list JoinResult) (s : Summary) :
  summary_of results = Ok s ->
  failed s = Z.of_nat (List.length (failed_results s))
  /\ successful s = Z.of_nat (List.length (List.filter success results))
  /\ Forall (fun r => success r = false) (failed_results s)
  /\ (forall r, In r results -> success r = false -> In r (failed_results s))
  /\ (failed s = 0%Z <-> failed_results s = [])
  /\ (forall w, display_results_summary client results w = print_summary client s w).
Proof.
  intros Hs.
  assert (Hd : forall w, display_results_summary client results w = print_summary client s w).
  { intros w. unfold display_results_summary. now rewrite Hs. }
  revert Hs. unfold summary_of, true_div.
  destruct (Z.of_nat (List.length results) =? 0)%Z; [discriminate |].
  intros H. injection H as <-. cbn.
  destruct (count_success_filter results) as [H1 H2].
  split; [exact H2 | split; [exact H1 | split; [| split; [| split]]]].
  - apply Forall_forall. intros r Hr. apply filter_In in Hr.
    now apply negb_true_iff.
  - intros r Hin Hs. apply filter_In. split; [exact Hin | now rewrite Hs].
  - rewrite H2. destruct (List.filter (fun r => negb (success r)) results);
      simpl; split; intros; try reflexivity; try discriminate; lia.
  - exact Hd.
Qed.

Lemma summary_lists_the_failures_witness :
  exists s,
    summary_of
      [ {| link := "https://t.me/alpha"; success := true; error := None;
           group_name := None; member_count := None; join_time := None |};
        {| link := "https://t.me/limited"; success := false;
           error := Some "Rate limited. Wait 3600 seconds";
           group_name := None; member_count := None; join_time := None |} ] = Ok s
    /\ failed s = Z.of_nat (List.length (failed_results s)).
Proof.
  eexists. split; [reflexivity |].
  apply (@summary_lists_the_failures nat Demo.client
           [ {| link := "https://t.me/alpha"; success := true; error := None;
                group_name := None; member_count := None; join_time := None |};
             {| link := "https://t.me/limited"; success := false;
                error := Some "Rate limited. Wait 3600 seconds";
                group_name := None; member_count := None; join_time := None |} ]).
  reflexivity.
Defined.

Lemma run_outcomes_consistent_witness :
  exists rs,
    run_result (join_groups_batch Demo.client Demo.links 1 false 0) = Ok rs
    /\ Forall (fun r => join_time r <> None
                        /\ (success r = false -> exists msg, error r = Some msg)
                        /\ (success r = true ->
                            error r = None \/ error r = Some "Already a member")) rs.
Proof.
  eexists. split; [vm_compute; reflexivity |].
  apply (@run_outcomes_consistent nat Demo.client Demo.links 1 false 0).
  vm_compute. reflexivity.
Defined.

Lemma private_invite_metadata_witness :
  kind (classify "https://t.me/joinchat/EXPIRED") = PrivateInvite
  /\ exists r,
       run_result (join_single_group Demo.client "https://t.me/joinchat/EXPIRED" 0) = Ok r
       /\ member_count r = None /\ (error r <> None -> group_name r = None).
Proof.
  split; [reflexivity |]. eexists. split; [vm_compute; reflexivity |].
  apply (@private_invite_metadata nat Demo.client "https://t.me/joinchat/EXPIRED" 0);
    reflexivity.
Defined.

Lemma public_metadata_from_lookup_witness :
  kind (classify "https://t.me/limited") = Public
  /\ exists r,
       run_result (join_single_group Demo.client "https://t.me/limited" 0) = Ok r
       /\ success r = false
       /\ group_name r = Some "limited" /\ member_count r = Some 42%Z.
Proof.
  split; [reflexivity |]. eexists. split; [vm_compute; reflexivity |].
  split; [reflexivity |].
  apply (@public_metadata_from_lookup nat Demo.client "https://t.me/limited" 0 2
           (Some "limited", Some 42%Z)
           [Call (GetEntity "limited"); Call (GetFullChannelRequest {| title := "limited" |})]);
    reflexivity.
Defined.


Lemma request_budget_witness :
  calls (run_trace (join_single_group Demo.client "https://t.me/+beta" 0))
  = [ImportChatInviteRequest "beta"].
Proof.
  apply (proj2 (proj1 (@request_budget nat Demo.client) "https://t.me/+beta" 0)).
  reflexivity.
Defined.


(** ** Saved accounts *)

Section DictFacts.

Context {A : Type}.

Lemma dict_get_set_same (k : string) (v : A) (d : list (string * A)) :
  PyDict.get k (PyDict.set k v d) = Some v.
Proof.
  induction d as [|[k' v'] d IH]; simpl.
  - now rewrite String.eqb_refl.
  - destruct (String.eqb_spec k' k) as [-> | Hne]; simpl.
    + now rewrite String.eqb_refl.
    + destruct (String.eqb_spec k' k); [contradiction | exact IH].
Qed.

Lemma dict_get_set_other (k k' : string) (v : A) (d : list (string * A)) :
  k' <> k -> PyDict.get k' (PyDict.set k v d) = PyDict.get k' d.
Proof.
  intros Hne. induction d as [|[k0 v0] d IH]; simpl.
  - destruct (String.eqb_spec k k'); [congruence | reflexivity].
  - destruct (String.eqb_spec k0 k) as [-> | H0]; simpl.
    + destruct (String.eqb_spec k k'); [congruence | reflexivity].
    + destruct (String.eqb_spec k0 k'); [reflexivity | exact IH].
Qed.

Lemma dict_keys_set (k : string) (v : A) (d : list (string * A)) :
  PyDict.keys (PyDict.set k v d)
  = if PyDict.mem k d then PyDict.keys d else PyDict.keys d ++ [k].
Proof.
  unfold PyDict.mem. induction d as [|[k' v'] d IH]; simpl; [reflexivity |].
  destruct (String.eqb_spec k' k) as [-> | Hne]; simpl; [reflexivity |].
  rewrite IH. now destruct (PyDict.get k d).
Qed.

Lemma dict_get_del_same (k : string) (d : list (string * A)) :
  PyDict.get k (PyDict.del k d) = None.
Proof.
  unfold PyDict.del. induction d as [|[k' v'] d IH]; simpl; [reflexivity |].
  destruct (String.eqb_spec k' k) as [-> | Hne]; simpl; [exact IH |].
  destruct (String.eqb_spec k' k); [contradiction | exact IH].
Qed.

Lemma dict_get_del_other (k k' : string) (d : list (string * A)) :
  k' <> k -> PyDict.get k' (PyDict.del k d) = PyDict.get k' d.
Proof.
  intros Hne. unfold PyDict.del. induction d as [|[k0 v0] d IH]; simpl; [reflexivity |].
  destruct (String.eqb_spec k0 k) as [-> | H0]; simpl.
  - destruct (String.eqb_spec k k'); [congruence | exact IH].
  - destruct (String.eqb_spec k0 k'); [reflexivity | exact IH].
Qed.

End DictFacts.

Section SortedFacts.

Context {A : Type} (key : A -> Z).

Lemma insert_reverse_perm (x : A) (l : list A) :
  Permutation (PyList.insert_reverse key x l) (x :: l).
Proof.
  induction l as [|y l IH]; simpl; [reflexivity |].
  destruct (key y <=? key x)%Z; [reflexivity |].
  rewrite IH. apply perm_swap.
Qed.

Lemma sorted_reverse_perm (l : list A) : Permutation (PyList.sorted_reverse key l) l.
Proof.
  induction l as [|x l IH]; simpl; [reflexivity |].
  rewrite insert_reverse_perm. now constructor.
Qed.

Lemma insert_reverse_sorted (x : A) (l : list A) :
  StronglySorted (fun a b => (key b <= key a)%Z) l ->
  StronglySorted (fun a b => (key b <= key a)%Z) (PyList.insert_reverse key x l).
Proof.
  induction 1 as [|y l Hs IH Hy]; simpl.
  - constructor; constructor.
  - destruct (Z.leb_spec (key y) (key x)) as [Hle | Hgt].
    + constructor; [now constructor |]. constructor; [exact Hle |].
      rewrite Forall_forall in Hy |- *. intros z Hz. specialize (Hy z Hz). lia.
    + constructor; [exact IH |].
      eapply Permutation_Forall; [symmetry; apply insert_reverse_perm |].
      constructor; [lia | exact Hy].
Qed.

Lemma sorted_reverse_sorted (l : list A) :
  StronglySorted (fun a b => (key b <= key a)%Z) (PyList.sorted_reverse key l).
Proof.
  induction l as [|x l IH]; simpl; [constructor | now apply insert_reverse_sorted].
Qed.

End SortedFacts.

Section ConfigFacts.

Context {W : Type} (cfg : ConfigFiles W) (dt : Datetime).

Lemma account_of_run (name : string) (cred : Credential) (w : W) :
  account_of dt name cred w = (parse_account dt name cred, w, []).
Proof.
  unfold account_of, parse_account, bind, observe, ret.
  destruct (cred_last_used cred) as [text|]; [| reflexivity].
  destruct (text =? "")%string; [reflexivity |].
  now destruct (fromisoformat dt text).
Qed.

Lemma save_credentials_run (account : AccountInfo) (w : W) :
  save_credentials cfg dt account w
  = match credentials_before cfg w with
    | Raise _ => (Ok false, w, [])
    | Ok d =>
        match credentials_dump cfg
                (PyDict.set (session_name account) (credential_of dt account) d) w with
        | (Ok _, w') => (Ok true, w', [])
        | (Raise _, w') => (Ok false, w', [])
        end
    end.
Proof.
  unfold save_credentials, credentials_before, try_except, bind, observe, file_op, ret,
    except_Exception. cbn [dispatch].
  destruct (credentials_exists cfg w).
  - destruct (credentials_load cfg w) as [d|e]; [| reflexivity].
    now destruct (credentials_dump cfg _ w) as [[[]|e] w'].
  - now destruct (credentials_dump cfg _ w) as [[[]|e] w'].
Qed.

Lemma get_credentials_run (name : string) (w : W) :
  get_credentials cfg dt name w
  = (Ok (if credentials_exists cfg w
         then match credentials_load cfg w with
              | Ok d => match PyDict.get name d with
                        | Some cred => match parse_account dt name cred with
                                       | Ok account => Some account
                                       | Raise _ => None
                                       end
                        | None => None
                        end
              | Raise _ => None
              end
         else None), w, []).
Proof.
  unfold get_credentials, try_except, bind, observe, ret, except_Exception, PyDict.mem.
  cbn [dispatch].
  destruct (credentials_exists cfg w); cbn [negb]; [| reflexivity].
  destruct (credentials_load cfg w) as [d|e]; [| reflexivity].
  destruct (PyDict.get name d) as [cred|]; cbn [negb]; [| reflexivity].
  rewrite account_of_run. now destruct (parse_account dt name cred).
Qed.

Lemma parse_account_of_credential (account : AccountInfo) :
  date_round_trip dt account ->
  parse_account dt (session_name account) (credential_of dt account) = Ok account.
Proof.
  unfold date_round_trip, parse_account, credential_of. destruct account as [n i h p f u [d|]];
    cbn; [| reflexivity].
  intros [Hrt Hne]. destruct (String.eqb_spec (isoformat dt d) ""); [contradiction |].
  now rewrite Hrt.
Qed.

(** X13. An account saved is the account read back: after a save that
    returned [True], [get_credentials] for its session returns the very
    account, when the file stores what is written and the date survives
    its ISO text. *)
Theorem credentials_round_trip (account : AccountInfo) (w w' : W) (t : list event) :
  credentials_stored cfg ->
  date_round_trip dt account ->
  save_credentials cfg dt account w = (Ok true, w', t) ->
  run_result (get_credentials cfg dt (session_name account) w') = Ok (Some account).
Proof.
  intros Hst Hrt Hs. rewrite save_credentials_run in Hs.
  destruct (credentials_before cfg w) as [d|e]; [| discriminate].
  destruct (credentials_dump cfg _ w) as [[[]|e] w1] eqn:Hd; [| discriminate].
  injection Hs as <- _. destruct (Hst _ _ _ Hd) as [He Hl].
  rewrite get_credentials_run, He, Hl, dict_get_set_same.
  now rewrite (parse_account_of_credential _ Hrt).
Qed.

(** X14. Saving an account leaves the others as they were: after a save
    that returned [True], [get_credentials] for any other session returns
    what it returned before. *)
Theorem save_keeps_other_accounts (account : AccountInfo) (name : string) (w w' : W)
    (t : list event) :
  credentials_stored cfg ->
  name <> session_name account ->
  save_credentials cfg dt account w = (Ok true, w', t) ->
  run_result (get_credentials cfg dt name w') = run_result (get_credentials cfg dt name w).
Proof.
  intros Hst Hne Hs. rewrite save_credentials_run in Hs. unfold credentials_before in Hs.
  rewrite !get_credentials_run. unfold run_result. cbn [fst].
  destruct (credentials_exists cfg w).
  - destruct (credentials_load cfg w) as [d|e]; [| discriminate].
    destruct (credentials_dump cfg _ w) as [[[]|e] w1] eqn:Hd; [| discriminate].
    injection Hs as <- _. destruct (Hst _ _ _ Hd) as [-> ->].
    now rewrite (dict_get_set_other _ _ Hne).
  - destruct (credentials_dump cfg _ w) as [[[]|e] w1] eqn:Hd; [| discriminate].
    injection Hs as <- _. destruct (Hst _ _ _ Hd) as [-> ->].
    now rewrite (dict_get_set_other _ _ Hne).
Qed.

Lemma accounts_loop_run (items : list (string * Credential)) :
  forall (accounts : list AccountInfo) (w : W),
    accounts_loop dt items accounts w
    = (match parse_accounts dt items with
       | Ok l => Ok (accounts ++ l)
       | Raise e => Raise e
       end, w, []).
Proof.
  induction items as [|[name cred] rest IH]; intros accounts w; cbn [accounts_loop parse_accounts].
  - unfold ret. now rewrite app_nil_r.
  - unfold bind. rewrite account_of_run.
    destruct (parse_account dt name cred) as [a|e]; [| reflexivity].
    rewrite IH. destruct (parse_accounts dt rest) as [l|e]; [| reflexivity].
    now rewrite <- app_assoc.
Qed.

Lemma list_saved_accounts_run (w : W) :
  list_saved_accounts cfg dt w
  = (Ok (if credentials_exists cfg w
         then match credentials_load cfg w with
              | Ok d => match parse_accounts dt d with
                        | Ok l => if comparable_keys dt l
                                  then PyList.sorted_reverse (last_used_key dt) l
                                  else []
                        | Raise _ => []
                        end
              | Raise _ => []
              end
         else []), w, []).
Proof.
  unfold list_saved_accounts, try_except, bind, observe, ret, except_Exception, sorted_accounts.
  cbn [dispatch].
  destruct (credentials_exists cfg w); cbn [negb]; [| reflexivity].
  destruct (credentials_load cfg w) as [d|e]; [| reflexivity].
  rewrite accounts_loop_run. destruct (parse_accounts dt d) as [l|e]; [| reflexivity].
  cbn [app]. now destruct (comparable_keys dt l).
Qed.

Lemma parse_account_name (name : string) (cred : Credential) (a : AccountInfo) :
  parse_account dt name cred = Ok a -> session_name a = name.
Proof.
  unfold parse_account. destruct (cred_last_used cred) as [text|].
  - destruct (text =? "")%string; [| destruct (fromisoformat dt text)];
      intros H; try discriminate; now injection H as <-.
  - intros H. now injection H as <-.
Qed.

Lemma parse_account_parses (name : string) (cred : Credential) :
  date_parses dt cred -> exists a, parse_account dt name cred = Ok a.
Proof.
  unfold date_parses, parse_account. destruct (cred_last_used cred) as [text|]; [| eauto].
  intros [-> | [d Hd]].
  - cbn. eauto.
  - destruct (text =? "")%string; [eauto |]. rewrite Hd. eauto.
Qed.

Lemma parse_accounts_parses (d : list (string * Credential)) :
  Forall (fun kv => date_parses dt (snd kv)) d ->
  exists l, parse_accounts dt d = Ok l /\ map session_name l = PyDict.keys d.
Proof.
  induction 1 as [|[name cred] d Hc _ (l & Hl & Hk)]; [now exists [] |].
  destruct (parse_account_parses name cred Hc) as [a Ha]. exists (a :: l).
  cbn [parse_accounts]. rewrite Ha, Hl. split; [reflexivity |].
  cbn. now rewrite (parse_account_name _ _ Ha), Hk.
Qed.

Lemma parse_accounts_bad_entry (d : list (string * Credential)) (name : string)
    (cred : Credential) (e : exn) :
  In (name, cred) d -> parse_account dt name cred = Raise e ->
  exists e', parse_accounts dt d = Raise e'.
Proof.
  induction d as [|[n c] d IH]; [contradiction |].
  intros [Heq | Hin] He; cbn [parse_accounts].
  - injection Heq as -> ->. rewrite He. eauto.
  - destruct (parse_account dt n c); [| eauto].
    destruct (IH Hin He) as [e' ->]. eauto.
Qed.

(** X15. The credentials file fails safe.  When it exists and cannot be
    read, [save_credentials] returns [False] and writes nothing;
    [get_credentials] returns [None] when there is no file, when the file
    cannot be read and when the session is not in it; neither function
    raises. *)
Theorem credentials_fail_safe :
  (forall account w, exists b w', save_credentials cfg dt account w = (Ok b, w', []))
  /\ (forall account w e,
        credentials_exists cfg w = true -> credentials_load cfg w = Raise e ->
        save_credentials cfg dt account w = (Ok false, w, []))
  /\ (forall name w, exists r, get_credentials cfg dt name w = (Ok r, w, []))
  /\ (forall name w,
        credentials_exists cfg w = false ->
        get_credentials cfg dt name w = (Ok None, w, []))
  /\ (forall name w e,
        credentials_load cfg w = Raise e ->
        get_credentials cfg dt name w = (Ok None, w, []))
  /\ (forall name w d,
        credentials_load cfg w = Ok d -> PyDict.get name d = None ->
        get_credentials cfg dt name w = (Ok None, w, [])).
Proof.
  repeat split.
  - intros account w. rewrite save_credentials_run.
    destruct (credentials_before cfg w) as [d|e]; [| eauto].
    destruct (credentials_dump cfg _ w) as [[[]|e] w']; eauto.
  - intros account w e He Hl. rewrite save_credentials_run. unfold credentials_before.
    now rewrite He, Hl.
  - intros name w. rewrite get_credentials_run. eauto.
  - intros name w He. rewrite get_credentials_run. now rewrite He.
  - intros name w e Hl. rewrite get_credentials_run, Hl.
    now destruct (credentials_exists cfg w).
  - intros name w d Hl Hg. rewrite get_credentials_run, Hl, Hg.
    now destruct (credentials_exists cfg w).
Qed.

(** X16. [list_saved_accounts] returns in every case, a list by decreasing
    date of last use, the accounts never used after all the others, down to
    [datetime.min].  When every date of the file parses and the dates can
    be compared with one another, each session of the file is listed, once.
    When they cannot, an aware date next to a naive one or to an account
    never used, the sort raises and the list is empty. *)
Theorem saved_accounts_sorted (w : W) :
  exists accounts,
    list_saved_accounts cfg dt w = (Ok accounts, w, [])
    /\ StronglySorted (fun a b => (last_used_key dt b <= last_used_key dt a)%Z) accounts
    /\ (forall d,
          credentials_exists cfg w = true -> credentials_load cfg w = Ok d ->
          Forall (fun kv => date_parses dt (snd kv)) d ->
          (forall l, parse_accounts dt d = Ok l -> comparable_keys dt l = true) ->
          Permutation (map session_name accounts) (PyDict.keys d))
    /\ (forall d l,
          credentials_exists cfg w = true -> credentials_load cfg w = Ok d ->
          parse_accounts dt d = Ok l -> comparable_keys dt l = false ->
          accounts = []).
Proof.
  rewrite list_saved_accounts_run. eexists. split; [reflexivity |]. split; [| split].
  - destruct (credentials_exists cfg w); [| constructor].
    destruct (credentials_load cfg w) as [d|e]; [| constructor].
    destruct (parse_accounts dt d) as [l|e]; [| constructor].
    destruct (comparable_keys dt l); [| constructor].
    apply sorted_reverse_sorted.
  - intros d -> -> HF Hc. destruct (parse_accounts_parses HF) as (l & Hl & <-).
    rewrite Hl, (Hc l Hl). apply Permutation_map, sorted_reverse_perm.
  - intros d l -> -> -> ->. reflexivity.
Qed.

(** X17. One entry whose date does not parse hides every account: the list
    of saved accounts is then empty, whatever the other entries are. *)
Theorem bad_date_hides_accounts (w : W) (d : list (string * Credential)) (name text : string)
    (cred : Credential) (e : exn) :
  credentials_load cfg w = Ok d ->
  In (name, cred) d ->
  cred_last_used cred = Some text -> text <> "" -> fromisoformat dt text = Raise e ->
  list_saved_accounts cfg dt w = (Ok [], w, []).
Proof.
  intros Hl Hin Ht Hne He. rewrite list_saved_accounts_run, Hl.
  assert (Hp : parse_account dt name cred = Raise e).
  { unfold parse_account. rewrite Ht. destruct (String.eqb_spec text ""); [contradiction |].
    now rewrite He. }
  destruct (parse_accounts_bad_entry _ _ _ Hin Hp) as [e' ->].
  now destruct (credentials_exists cfg w).
Qed.

(** X18. Saving the account of a session already in the file replaces its
    entry where it stands, and saving a new one adds it at the end: the
    sessions of the file keep their order and none appears twice more than
    before. *)
Theorem save_keeps_sessions_in_place (account : AccountInfo) (w w' : W) (t : list event)
    (d : list (string * Credential)) :
  credentials_stored cfg ->
  credentials_before cfg w = Ok d ->
  save_credentials cfg dt account w = (Ok true, w', t) ->
  exists d',
    credentials_load cfg w' = Ok d'
    /\ PyDict.get (session_name account) d' = Some (credential_of dt account)
    /\ PyDict.keys d'
       = if PyDict.mem (session_name account) d
         then PyDict.keys d
         else PyDict.keys d ++ [session_name account].
Proof.
  intros Hst Hb Hs. rewrite save_credentials_run, Hb in Hs.
  destruct (credentials_dump cfg _ w) as [[[]|e] w1] eqn:Hd; [| discriminate].
  injection Hs as <- _. destruct (Hst _ _ _ Hd) as [_ Hl].
  eexists. split; [exact Hl |]. split; [apply dict_get_set_same | apply dict_keys_set].
Qed.

End ConfigFacts.

Lemma mem_credentials_stored : credentials_stored MemConfig.files.
Proof. intros d w w' H. injection H as <-. split; reflexivity. Qed.

Lemma credentials_round_trip_witness :
  date_round_trip MemConfig.dates MemConfig.alice
  /\ save_credentials MemConfig.files MemConfig.dates MemConfig.alice MemConfig.empty
     = (Ok true,
        {| MemConfig.credentials :=
             Some [("alice", credential_of MemConfig.dates MemConfig.alice)];
           MemConfig.settings := None |}, [])
  /\ run_result
       (get_credentials MemConfig.files MemConfig.dates "alice"
          {| MemConfig.credentials :=
               Some [("alice", credential_of MemConfig.dates MemConfig.alice)];
             MemConfig.settings := None |})
     = Ok (Some MemConfig.alice).
Proof.
  assert (H : date_round_trip MemConfig.dates MemConfig.alice)
    by (split; [reflexivity | discriminate]).
  split; [exact H | split; [reflexivity |]].
  apply (@credentials_round_trip _ MemConfig.files MemConfig.dates MemConfig.alice
           MemConfig.empty _ [] mem_credentials_stored H).
  reflexivity.
Defined.

Lemma save_keeps_other_accounts_witness :
  "bob" <> session_name MemConfig.alice
  /\ run_result
       (get_credentials MemConfig.files MemConfig.dates "bob"
          {| MemConfig.credentials :=
               Some [("bob", credential_of MemConfig.dates MemConfig.bob);
                     ("alice", credential_of MemConfig.dates MemConfig.alice)];
             MemConfig.settings := None |})
     = Ok (Some MemConfig.bob).
Proof.
  split; [discriminate |].
  rewrite (@save_keeps_other_accounts _ MemConfig.files MemConfig.dates MemConfig.alice "bob"
             {| MemConfig.credentials :=
                  Some [("bob", credential_of MemConfig.dates MemConfig.bob)];
                MemConfig.settings := None |} _ [] mem_credentials_stored);
    [reflexivity | discriminate | reflexivity].
Defined.

Lemma credentials_fail_safe_witness :
  get_credentials MemConfig.files MemConfig.dates "alice" MemConfig.empty
  = (Ok None, MemConfig.empty, []).
Proof.
  apply (proj1 (proj2 (proj2 (proj2 (@credentials_fail_safe _ MemConfig.files
                                        MemConfig.dates))))).
  reflexivity.
Defined.

Lemma saved_accounts_sorted_witness :
  (exists accounts,
      list_saved_accounts MemConfig.files MemConfig.dates MemConfig.two_accounts
      = (Ok accounts, MemConfig.two_accounts, [])
      /\ Permutation (map session_name accounts) ["bob"; "alice"])
  /\ list_saved_accounts MemConfig.files MemConfig.zoned MemConfig.two_accounts
     = (Ok [], MemConfig.two_accounts, []).
Proof.
  split.
  - destruct (@saved_accounts_sorted _ MemConfig.files MemConfig.dates MemConfig.two_accounts)
      as (accounts & Hl & _ & Hp & _).
    exists accounts. split; [exact Hl |].
    apply (Hp [("bob", credential_of MemConfig.dates MemConfig.bob);
               ("alice", credential_of MemConfig.dates MemConfig.alice)]);
      [reflexivity | reflexivity | |].
    + constructor; [exact I |]. constructor; [| constructor].
      right. exists 0%Z. reflexivity.
    + intros l H. vm_compute in H. injection H as <-. reflexivity.
  - destruct (@saved_accounts_sorted _ MemConfig.files MemConfig.zoned MemConfig.two_accounts)
      as (accounts & Hl & _ & _ & Hm).
    rewrite Hl. f_equal. f_equal. f_equal.
    apply (Hm [("bob", credential_of MemConfig.dates MemConfig.bob);
               ("alice", credential_of MemConfig.dates MemConfig.alice)]
              [MemConfig.bob; MemConfig.alice]); reflexivity.
Defined.

Lemma bad_date_hides_accounts_witness :
  list_saved_accounts MemConfig.files MemConfig.dates MemConfig.with_bad_date
  = (Ok [], MemConfig.with_bad_date, []).
Proof.
  apply (@bad_date_hides_accounts _ MemConfig.files MemConfig.dates MemConfig.with_bad_date
           [("alice", credential_of MemConfig.dates MemConfig.alice);
            ("carol", MemConfig.carol)]
           "carol" "yesterday" MemConfig.carol
           (mkExn OtherException "Invalid isoformat string") eq_refl);
    [right; left; reflexivity | reflexivity | discriminate | reflexivity].
Defined.

Lemma save_keeps_sessions_in_place_witness :
  exists d',
    MemConfig.credentials
      (run_world (save_credentials MemConfig.files MemConfig.dates MemConfig.alice
                    {| MemConfig.credentials :=
                         Some [("alice", credential_of MemConfig.dates MemConfig.bob);
                               ("bob", credential_of MemConfig.dates MemConfig.bob)];
                       MemConfig.settings := None |})) = Some d'
    /\ PyDict.keys d' = ["alice"; "bob"].
Proof.
  destruct (@save_keeps_sessions_in_place _ MemConfig.files MemConfig.dates MemConfig.alice
              {| MemConfig.credentials :=
                   Some [("alice", credential_of MemConfig.dates MemConfig.bob);
                         ("bob", credential_of MemConfig.dates MemConfig.bob)];
                 MemConfig.settings := None |} _ []
              [("alice", credential_of MemConfig.dates MemConfig.bob);
               ("bob", credential_of MemConfig.dates MemConfig.bob)]
              mem_credentials_stored eq_refl eq_refl) as (d' & Hl & _ & Hk).
  exists d'. split; [| exact Hk].
  cbn in Hl. injection Hl as <-. reflexivity.
Defined.

(** ** Deleting an account *)

Section DeleteFacts.

Context {W : Type} (cfg : ConfigFiles W) (env : SessionEnv W) (dt : Datetime).

Lemma load_settings_run (w : W) :
  exists settings, load_settings cfg w = (Ok settings, w, []).
Proof.
  unfold load_settings, try_except, observe, ret, except_Exception. cbn [dispatch].
  destruct (settings_exists cfg w); cbn [negb]; [| eauto].
  destruct (settings_load cfg w); eauto.
Qed.

Lemma save_settings_run (settings : list (string * setting)) (w : W) :
  exists b, save_settings cfg settings w = (Ok b, snd (settings_dump cfg settings w), []).
Proof.
  unfold save_settings, try_except, bind, file_op, ret, except_Exception. cbn [dispatch].
  destruct (settings_dump cfg settings w) as [[[]|e] w']; eauto.
Qed.

(** The credentials a world holds, as [get_credentials] reads them. *)
Lemma get_credentials_same (name : string) (w w' : W) :
  credentials_exists cfg w' = credentials_exists cfg w ->
  credentials_load cfg w' = credentials_load cfg w ->
  run_result (get_credentials cfg dt name w') = run_result (get_credentials cfg dt name w).
Proof. intros He Hl. rewrite !get_credentials_run. unfold run_result. cbn. now rewrite He, Hl. Qed.

(** The steps of a deletion that returned [True]. *)
Lemma delete_account_steps (js js' : JoinerState) (name : string) (w w4 : W)
    (t : list event) :
  delete_account cfg env js name w = (Ok (true, js'), w4, t) ->
  exists w1 w2 w3,
    (w1 = w \/ exists r, session_file_unlink env (name ++ ".session") w = (r, w1))
    /\ ((credentials_exists cfg w1 = false /\ w2 = w1)
        \/ exists d, credentials_exists cfg w1 = true /\ credentials_load cfg w1 = Ok d
                     /\ ((PyDict.mem name d = false /\ w2 = w1)
                         \/ credentials_dump cfg (PyDict.del name d) w1 = (Ok tt, w2)))
    /\ (w3 = w2 \/ exists st r, settings_dump cfg st w2 = (r, w3))
    /\ (w4 = w3 \/ exists r, client_disconnect env w3 = (r, w4))
    /\ js' = (if match current_account js with
                 | Some account => (session_name account =? name)%string
                 | None => false
                 end
              then {| current_account := None; has_client := false |}
              else js).
Proof.
  unfold delete_account, try_except, except_Exception. cbn [dispatch].
  unfold bind at 1.
  (* the session file *)
  assert (H1 : exists r1 w1,
             (if session_file_exists env (name ++ ".session") w
              then file_op (session_file_unlink env (name ++ ".session")) w
              else ret tt w) = (r1, w1, [])
             /\ (w1 = w \/ exists r, session_file_unlink env (name ++ ".session") w = (r, w1))).
  { destruct (session_file_exists env (name ++ ".session") w).
    - unfold file_op. destruct (session_file_unlink env (name ++ ".session") w) as [r w1] eqn:E.
      exists r, w1. split; [reflexivity | right; now exists r].
    - exists (Ok tt), w. split; [reflexivity | now left]. }
  destruct H1 as (r1 & w1 & -> & Hw1). destruct r1 as [[]|e1]; [| cbn; discriminate].
  unfold bind at 1.
  (* the credentials *)
  assert (H2 : exists r2 w2,
             (if credentials_exists cfg w1
              then bind (observe (credentials_load cfg))
                     (fun credentials =>
                        if PyDict.mem name credentials
                        then file_op (credentials_dump cfg (PyDict.del name credentials))
                        else ret tt) w1
              else ret tt w1) = (r2, w2, [])
             /\ (r2 = Ok tt ->
                 (credentials_exists cfg w1 = false /\ w2 = w1)
                 \/ exists d, credentials_exists cfg w1 = true /\ credentials_load cfg w1 = Ok d
                              /\ ((PyDict.mem name d = false /\ w2 = w1)
                                  \/ credentials_dump cfg (PyDict.del name d) w1 = (Ok tt, w2)))).
  { destruct (credentials_exists cfg w1) eqn:He.
    - unfold bind, observe. destruct (credentials_load cfg w1) as [d|e] eqn:Hl.
      + destruct (PyDict.mem name d) eqn:Hm.
        * unfold file_op.
          destruct (credentials_dump cfg (PyDict.del name d) w1) as [r w2] eqn:Hd.
          exists r, w2. split; [reflexivity |]. intros ->. right. exists d. auto.
        * exists (Ok tt), w1. split; [reflexivity |]. intros _. right. exists d. auto.
      + exists (Raise e), w1. split; [reflexivity | discriminate].
    - exists (Ok tt), w1. split; [reflexivity | auto]. }
  destruct H2 as (r2 & w2 & -> & Hw2). destruct r2 as [[]|e2]; [| cbn; discriminate].
  specialize (Hw2 eq_refl). unfold bind at 1.
  (* the settings *)
  destruct (load_settings_run w2) as [settings ->]. unfold bind at 1.
  assert (H3 : exists w3,
             (match List.filter (PyStr.startswith (name ++ "_")) (PyDict.keys settings) with
              | [] => ret tt
              | _ :: _ =>
                  bind (save_settings cfg
                          (List.fold_left (fun s key => PyDict.del key s)
                             (List.filter (PyStr.startswith (name ++ "_"))
                                (PyDict.keys settings)) settings))
                       (fun _ => ret tt)
              end) w2 = (Ok tt, w3, [])
             /\ (w3 = w2 \/ exists st r, settings_dump cfg st w2 = (r, w3))).
  { destruct (List.filter (PyStr.startswith (name ++ "_")) (PyDict.keys settings)) as [|k ks].
    - exists w2. split; [reflexivity | now left].
    - unfold bind. destruct (save_settings_run (List.fold_left (fun s key => PyDict.del key s)
                                                   (k :: ks) settings) w2) as [b ->].
      eexists. split; [reflexivity |]. right. eexists. eexists. apply surjective_pairing. }
  destruct H3 as (w3 & -> & Hw3).
  (* the connection *)
  destruct (match current_account js with
            | Some account => (session_name account =? name)%string
            | None => false
            end).
  - unfold bind. destruct (has_client js).
    + unfold file_op. destruct (client_disconnect env w3) as [[[]|e] w4'] eqn:Hd;
        cbn; intros H; [| discriminate].
      injection H as <- <- _. exists w1, w2, w3. repeat split; eauto.
    + cbn. intros H. injection H as <- <- _. exists w1, w2, w3. repeat split; auto.
  - cbn. intros H. injection H as <- <- _. exists w1, w2, w3. repeat split; auto.
Qed.

(** X19. A deletion that returned [True] forgets the credentials of the
    session and of no other: afterwards [get_credentials] returns [None]
    for the session and, for every other session, what it returned before.
    The joiner is logged out exactly when the session was the current one. *)
Theorem delete_account_forgets_session (js js' : JoinerState) (name : string) (w w' : W)
    (t : list event) :
  credentials_stored cfg ->
  credentials_untouched cfg env ->
  delete_account cfg env js name w = (Ok (true, js'), w', t) ->
  run_result (get_credentials cfg dt name w') = Ok None
  /\ (forall other, other <> name ->
        run_result (get_credentials cfg dt other w')
        = run_result (get_credentials cfg dt other w))
  /\ js' = (if match current_account js with
               | Some account => (session_name account =? name)%string
               | None => false
               end
            then {| current_account := None; has_client := false |}
            else js).
Proof.
  intros Hst (Fu & Fs & Fd) H.
  destruct (delete_account_steps _ _ _ H) as (w1 & w2 & w3 & H1 & H2 & H3 & H4 & Hjs).
  assert (E1 : credentials_exists cfg w1 = credentials_exists cfg w
               /\ credentials_load cfg w1 = credentials_load cfg w).
  { destruct H1 as [-> | [r Hr]]; [now split | exact (Fu _ _ _ _ Hr)]. }
  assert (E3 : credentials_exists cfg w' = credentials_exists cfg w2
               /\ credentials_load cfg w' = credentials_load cfg w2).
  { assert (E : credentials_exists cfg w3 = credentials_exists cfg w2
                /\ credentials_load cfg w3 = credentials_load cfg w2).
    { destruct H3 as [-> | (st & r & Hr)]; [now split | exact (Fs _ _ _ _ Hr)]. }
    destruct H4 as [-> | [r Hr]]; [exact E |].
    destruct (Fd _ _ _ Hr) as [Ha Hb]. destruct E as [Ea Eb]. split; congruence. }
  destruct E1 as [E1a E1b]. destruct E3 as [E3a E3b].
  split; [| split; [| exact Hjs]].
  - rewrite (get_credentials_same name _ _ E3a E3b), get_credentials_run.
    unfold run_result. cbn [fst].
    destruct H2 as [[He ->] | (d & He & Hl & [[Hm ->] | Hd])].
    + now rewrite He.
    + rewrite He, Hl. unfold PyDict.mem in Hm. now destruct (PyDict.get name d).
    + destruct (Hst _ _ _ Hd) as [-> ->]. now rewrite dict_get_del_same.
  - intros other Hne.
    rewrite (get_credentials_same other _ _ E3a E3b),
      <- (get_credentials_same other _ _ E1a E1b).
    destruct H2 as [[He ->] | (d & He & Hl & [[Hm ->] | Hd])]; try reflexivity.
    rewrite !get_credentials_run. unfold run_result. cbn [fst].
    destruct (Hst _ _ _ Hd) as [-> ->]. rewrite He, Hl.
    now rewrite (dict_get_del_other _ Hne).
Qed.

(** X20. The session file goes first: when it has been removed and the
    credentials file then cannot be read, the deletion returns [False] with
    the session file already gone, and leaves the joiner as it was. *)
Theorem delete_account_stops_at_unreadable_credentials (js : JoinerState) (name : string)
    (w w1 : W) (e : exn) :
  session_file_exists env (name ++ ".session") w = true ->
  session_file_unlink env (name ++ ".session") w = (Ok tt, w1) ->
  credentials_exists cfg w1 = true ->
  credentials_load cfg w1 = Raise e ->
  delete_account cfg env js name w = (Ok (false, js), w1, []).
Proof.
  intros Hx Hu He Hl.
  unfold delete_account, try_except, except_Exception, bind, file_op, observe, ret.
  cbn [dispatch]. rewrite Hx, Hu, He, Hl. reflexivity.
Qed.

End DeleteFacts.

Lemma mem_credentials_untouched : credentials_untouched MemConfig.files MemConfig.sessions.
Proof.
  repeat split; intros; cbn in *;
    match goal with H : (_, _) = (_, _) |- _ => injection H as _ <- end; reflexivity.
Qed.

Lemma delete_account_forgets_session_witness :
  delete_account MemConfig.files MemConfig.sessions
    {| current_account := Some MemConfig.alice; has_client := true |} "alice"
    MemConfig.two_accounts
  = (Ok (true, {| current_account := None; has_client := false |}),
     {| MemConfig.credentials := Some [("bob", credential_of MemConfig.dates MemConfig.bob)];
        MemConfig.settings := Some [("log_level", SStr "INFO")] |}, [])
  /\ run_result
       (get_credentials MemConfig.files MemConfig.dates "alice"
          {| MemConfig.credentials :=
               Some [("bob", credential_of MemConfig.dates MemConfig.bob)];
             MemConfig.settings := Some [("log_level", SStr "INFO")] |})
     = Ok None.
Proof.
  split; [reflexivity |].
  apply (@delete_account_forgets_session _ MemConfig.files MemConfig.sessions MemConfig.dates
           {| current_account := Some MemConfig.alice; has_client := true |}
           {| current_account := None; has_client := false |} "alice"
           MemConfig.two_accounts _ []
           mem_credentials_stored mem_credentials_untouched).
  reflexivity.
Defined.

Lemma delete_account_stops_at_unreadable_credentials_witness :
  delete_account BrokenConfig.files BrokenConfig.sessions
    {| current_account := None; has_client := false |} "alice" true
  = (Ok (false, {| current_account := None; has_client := false |}), false, []).
Proof.
  apply (@delete_account_stops_at_unreadable_credentials _ BrokenConfig.files
           BrokenConfig.sessions {| current_account := None; has_client := false |}
           "alice" true false BrokenConfig.unreadable);
    reflexivity.
Defined.
